(** * Octree: the point-set generator [bin/generate_points.py]

    The script seeds NumPy's global generator, draws [NUM_POINTS] rows of
    three uniform doubles, scales them by [MAX_COORDINATE], writes them with
    [np.savetxt(..., fmt='%.4f')] and prints a confirmation line.

    The embedding keeps the script's shape: a state-and-exception monad over
    a world made of the generator state, a file system and standard output.
    Doubles are IEEE-754 binary64 values of the Standard Library's
    [SpecFloat]; the text written to the file is an ordinary [string]. *)

From Stdlib Require Import ZArith QArith Qabs Lia List String Ascii Bool.
From Stdlib Require Import Floats.SpecFloat.
From Stdlib Require Import DecimalString DecimalN.
From stdpp Require Import gmap strings.

Local Open Scope Z_scope.

(* ================================================================== *)
(** * Definitions *)
(* ================================================================== *)

(** ** binary64 arithmetic *)

Module F64.

Definition prec : Z := 53.
Definition emax : Z := 1024.

(** [x * y] on float64, rounding to nearest, ties to even. *)
Definition mul (x y : spec_float) : spec_float := SFmul prec emax x y.

(** A Python [int] converted to float64 (NumPy does this to the scalar
    operand of [array * MAX_COORDINATE]). *)
Definition of_int (z : Z) : spec_float := binary_normalize prec emax z 0 false.

(** [2 ^ k] as a positive denominator, for [k >= 0]. *)
Definition pow2 (k : Z) : positive := Z.to_pos (2 ^ k).

(** The rational number a finite double denotes ([0] for the rest). *)
Definition to_Q (x : spec_float) : Q :=
  match x with
  | S754_finite s m e =>
      let mag := if e <? 0 then Qmake (Zpos m) (pow2 (- e))
                 else inject_Z (Zpos m * 2 ^ e) in
      if s then Qopp mag else mag
  | _ => 0%Q
  end.

(** A double in the half-open unit interval: [+0], or a positive finite
    double whose mantissa fits the precision and whose value is below 1. *)
Definition in_unit_interval (x : spec_float) : bool :=
  match x with
  | S754_zero false => true
  | S754_finite false m e =>
      (Zpos m <? 2 ^ prec) && (e <? 0) && (Zpos m <? 2 ^ (- e))
  | _ => false
  end.

(** [+0] or a positive finite double. *)
Definition nonneg (x : spec_float) : bool :=
  match x with
  | S754_zero false | S754_finite false _ _ => true
  | _ => false
  end.

(** [0 <= x < z] for a double [x] and an integer [z]; [-0], the
    infinities and NaN are not in range. *)
Definition nonneg_lt (x : spec_float) (z : Z) : bool :=
  match x with
  | S754_zero false => 0 <? z
  | S754_finite false m e =>
      if e <? 0 then Zpos m <? z * 2 ^ (- e) else Zpos m * 2 ^ e <? z
  | _ => false
  end.

End F64.

(** What [k] one-bit shifts of the rounding procedure leave of [m0]: the
    quotient, and two flags locating the remainder against half of [2^k]. *)
Definition shifted (m0 : Z) (k : nat) (x : shr_record) : Prop :=
  exists rem t : Z,
    0 <= shr_m x /\
    m0 = shr_m x * 2 ^ Z.of_nat k + rem /\
    0 <= rem < 2 ^ Z.of_nat k /\
    2 * rem = (if shr_r x then 2 ^ Z.of_nat k else 0) + t /\
    0 <= t < 2 ^ Z.of_nat k /\
    (shr_s x = false <-> t = 0).

(** ** Text: decimal digits, ['%.4f'], and reading a number back *)

Definition is_digit (c : ascii) : bool :=
  let n := N_of_ascii c in ((48 <=? n) && (n <=? 57))%N.

Fixpoint all_digits (s : string) : bool :=
  match s with
  | EmptyString => true
  | String c s' => is_digit c && all_digits s'
  end.

(** [str(n)] for a non-negative integer. *)
Definition string_of_N (n : N) : string :=
  NilEmpty.string_of_uint (N.to_uint n).

(** [str(z)] for a Python [int]. *)
Definition string_of_Z (z : Z) : string :=
  NilZero.string_of_int (Z.to_int z).

(** Nearest integer to [num / 2^k], ties to the even neighbour ([k > 0]). *)
Definition round_half_even (num k : Z) : Z :=
  let q := num / 2 ^ k in
  let r := num mod 2 ^ k in
  match 2 * r ?= 2 ^ k with
  | Lt => q
  | Eq => if Z.even q then q else q + 1
  | Gt => q + 1
  end.

(** Nearest integer to [m * 2^e * 10^4]: the magnitude of a finite double
    counted in units of [10^-4], correctly rounded as C's [printf] and
    Python's ['%.4f' % x] do. *)
Definition scaled4 (m : positive) (e : Z) : Z :=
  if 0 <=? e then Zpos m * 2 ^ e * 10000
  else round_half_even (Zpos m * 10000) (- e).

Definition digit_uint (d : Z) (rest : Decimal.uint) : Decimal.uint :=
  match d with
  | 0 => Decimal.D0 rest | 1 => Decimal.D1 rest | 2 => Decimal.D2 rest
  | 3 => Decimal.D3 rest | 4 => Decimal.D4 rest | 5 => Decimal.D5 rest
  | 6 => Decimal.D6 rest | 7 => Decimal.D7 rest | 8 => Decimal.D8 rest
  | _ => Decimal.D9 rest
  end.

(** The four fractional digits of [f], zero padded ([0 <= f < 10^4]). *)
Definition digits4_uint (f : Z) : Decimal.uint :=
  digit_uint (f / 1000) (digit_uint (f / 100 mod 10)
    (digit_uint (f / 10 mod 10) (digit_uint (f mod 10) Decimal.Nil))).

Definition digits4 (f : Z) : string :=
  NilEmpty.string_of_uint (digits4_uint f).

(** [n] units of [10^-4] in fixed-point notation: integer digits, a point,
    four fractional digits. *)
Definition fixed4 (n : Z) : string :=
  string_of_N (Z.to_N (n / 10000)) +:+ "." +:+ digits4 (n mod 10000).

Definition sign_text (s : bool) : string := if s then "-" else "".

(** Python's ['%.4f' % x] for a float64 [x]. *)
Definition format_4f (x : spec_float) : string :=
  match x with
  | S754_nan => "nan"
  | S754_infinity s => sign_text s +:+ "inf"
  | S754_zero s => sign_text s +:+ "0.0000"
  | S754_finite s m e => sign_text s +:+ fixed4 (scaled4 m e)
  end.

(** The magnitude of a double in units of [10^-4], as ['%.4f'] prints it. *)
Definition units4 (x : spec_float) : Z :=
  match x with
  | S754_finite _ m e => scaled4 m e
  | _ => 0
  end.

Fixpoint has_char (c : ascii) (s : string) : bool :=
  match s with
  | EmptyString => false
  | String c' s' => Ascii.eqb c' c || has_char c s'
  end.

(** [s.split(sep)] for a one-character separator. *)
Fixpoint split_on (sep : ascii) (s : string) : list string :=
  match s with
  | EmptyString => [EmptyString]
  | String c s' =>
      if Ascii.eqb c sep then EmptyString :: split_on sep s'
      else match split_on sep s' with
           | h :: t => String c h :: t
           | [] => [String c EmptyString]
           end
  end.

(** A run of decimal digits read as a number; [None] on anything else,
    the empty string included. *)
Definition parse_digits (s : string) : option N :=
  match s with
  | EmptyString => None
  | _ => if all_digits s
         then option_map N.of_uint (NilEmpty.uint_of_string s)
         else None
  end.

(** Reading a fixed-point field back as an exact rational: what a consumer
    of the file sees. Accepts [digits.digits]. *)
Definition parse_fixed (s : string) : option Q :=
  match split_on "." s with
  | [ip; fp] =>
      match parse_digits ip, parse_digits fp with
      | Some a, Some b =>
          let den := Pos.pow 10 (Pos.of_nat (String.length fp)) in
          Some (Qmake (Z.of_N a * Zpos den + Z.of_N b) den)
      | _, _ => None
      end
  | _ => None
  end.

(** The shape ['%.4f'] is claimed to have: one or more digits, a point,
    exactly four digits; no sign, no exponent. *)
Definition is_fixed4 (s : string) : bool :=
  match split_on "." s with
  | [ip; fp] =>
      negb (String.eqb ip "") && all_digits ip
      && (String.length fp =? 4)%nat && all_digits fp
  | _ => false
  end.

(** A line of the file: three fixed-point fields, single spaces between. *)
Definition is_point_line (l : string) : bool :=
  match split_on " " l with
  | [a; b; c] => is_fixed4 a && is_fixed4 b && is_fixed4 c
  | _ => false
  end.

Definition nl : ascii := ascii_of_nat 10.
Definition newline : string := String nl EmptyString.



(** The lines of a text file whose every line is newline terminated;
    [None] when the last line is not. *)
Definition file_lines (text : string) : option (list string) :=
  let parts := split_on nl text in
  if String.eqb (List.last parts "x") "" then Some (removelast parts) else None.

(** ** The file system *)

Inductive node : Type :=
  | Dir (writable : bool)
  | File (writable : bool) (content : string).

(** Paths are keys as the program spells them; [fs_free] is the number of
    bytes the device can still take. *)
Record FileSystem : Type := mkFS {
  fs_nodes : gmap string node;
  fs_free : N
}.

(** The subclasses of [OSError] that opening or writing a file raises. *)
Inductive os_error : Type :=
  | FileNotFoundError
  | NotADirectoryError
  | IsADirectoryError
  | PermissionError
  | NoSpaceError.

(** Dropping the characters of a list up to its first slash, which stays. *)
Fixpoint upto_slash (l : list ascii) : list ascii :=
  match l with
  | c :: l' => if Ascii.eqb c "/" then l else upto_slash l'
  | [] => []
  end.

Fixpoint strip_slashes (l : list ascii) : list ascii :=
  match l with
  | c :: l' => if Ascii.eqb c "/" then strip_slashes l' else l
  | [] => []
  end.

(** The directory part of a path, as [os.path.dirname]: the text up to the
    last slash, trailing slashes stripped unless it is made of slashes only;
    empty (the current directory) when the path has no slash. *)
Definition dirname (p : string) : string :=
  let rhead := upto_slash (rev (list_ascii_of_string p)) in
  string_of_list_ascii
    (rev (if forallb (Ascii.eqb "/") rhead then rhead else strip_slashes rhead)).

(** [open(path, 'wt')]: create or truncate a regular file for writing.
    The containing directory must exist and be a directory; an existing
    destination must be a writable regular file; a new one needs write
    permission on the directory. Truncation gives the old bytes back to
    the device. Only the immediate parent is looked at. *)
Definition open_wt (fs : FileSystem) (path : string) : os_error + FileSystem :=
  match fs_nodes fs !! dirname path with
  | None => inl FileNotFoundError
  | Some (File _ _) => inl NotADirectoryError
  | Some (Dir dw) =>
      match fs_nodes fs !! path with
      | Some (Dir _) => inl IsADirectoryError
      | Some (File fw old) =>
          if fw
          then inr (mkFS (insert path (File true EmptyString) (fs_nodes fs))
                         (fs_free fs + N.of_nat (String.length old)))
          else inl PermissionError
      | None =>
          if dw
          then inr (mkFS (insert path (File true EmptyString) (fs_nodes fs))
                         (fs_free fs))
          else inl PermissionError
      end
  end.

(** Writing [text] to the freshly opened, empty file at [path] and closing
    it. When the device cannot take all of it, the bytes that fit stay in
    the file and the write raises. *)
Definition write_close (fs : FileSystem) (path text : string)
  : FileSystem * option os_error :=
  let len := N.of_nat (String.length text) in
  if (len <=? fs_free fs)%N
  then (mkFS (insert path (File true text) (fs_nodes fs)) (fs_free fs - len),
        None)
  else (mkFS (insert path
                (File true (String.substring 0 (N.to_nat (fs_free fs)) text))
                (fs_nodes fs)) 0,
        Some NoSpaceError).

(** The content of the regular file at [path], if there is one. *)
Definition read_file (fs : FileSystem) (path : string) : option string :=
  match fs_nodes fs !! path with
  | Some (File _ s) => Some s
  | _ => None
  end.

(** ** NumPy's bit generator

    [np.random] draws from a bit generator; the script never looks inside
    it, so it is an interface here: a state, the state a seed gives, and the
    next 32-bit word. *)

Class BitGenerator : Type := {
  bg_state : Type;
  bg_seed : Z -> bg_state;
  bg_next_uint32 : bg_state -> Z * bg_state
}.

(** ** The world and the monad of the script *)

Record World `{BitGenerator} : Type := mkWorld {
  w_rng : bg_state;
  w_fs : FileSystem;
  w_stdout : string
}.

Inductive exn : Type :=
  | ValueError
  | OSError (e : os_error).

Inductive result (A : Type) : Type :=
  | Ok (a : A)
  | Raise (e : exn).
Arguments Ok {A} a.
Arguments Raise {A} e.

Definition Py `{BitGenerator} (A : Type) : Type := World -> World * result A.

Definition ret `{BitGenerator} {A : Type} (a : A) : Py A := fun w => (w, Ok a).

Definition bind `{BitGenerator} {A B : Type} (c : Py A) (k : A -> Py B) : Py B :=
  fun w =>
    match c w with
    | (w', Ok a) => k a w'
    | (w', Raise e) => (w', Raise e)
    end.

Definition raise `{BitGenerator} {A : Type} (e : exn) : Py A :=
  fun w => (w, Raise e).

Notation "x <- c ;; k" := (bind c (fun x => k))
  (at level 100, c at next level, right associativity).
Notation "c ;; k" := (bind c (fun _ => k))
  (at level 100, right associativity).

Section Script.

Context `{G : BitGenerator}.

(** [random_sample] of the legacy generator: two words give 27 and 26
    bits, [(a * 67108864.0 + b) / 9007199254740992.0]. The words are C
    [uint32_t], hence the reduction; both products and the sum are below
    [2^53], so the three float operations are exact and the result is
    the double [(a * 2^26 + b) / 2^53]. *)
Definition next_double (s : bg_state) : spec_float * bg_state :=
  let (x, s1) := bg_next_uint32 s in
  let (y, s2) := bg_next_uint32 s1 in
  let a := Z.shiftr (x mod 2 ^ 32) 5 in
  let b := Z.shiftr (y mod 2 ^ 32) 6 in
  (binary_normalize F64.prec F64.emax (a * 67108864 + b) (-53) false, s2).

(** The generator state after [k] samples drawn from [s], and the
    sample drawn next. *)
Definition state_after (s : bg_state) (k : nat) : bg_state :=
  Nat.iter k (fun s' => snd (next_double s')) s.

Definition sample_at (s : bg_state) (k : nat) : spec_float :=
  fst (next_double (state_after s k)).

(** [k] consecutive draws. *)
Fixpoint draw (k : nat) (s : bg_state) : list spec_float * bg_state :=
  match k with
  | O => ([], s)
  | S k' =>
      let (x, s1) := next_double s in
      let (xs, s2) := draw k' s1 in
      (x :: xs, s2)
  end.

(** [rows] rows of [cols] draws each, filled in row-major order. *)
Fixpoint draw_rows (rows cols : nat) (s : bg_state)
  : list (list spec_float) * bg_state :=
  match rows with
  | O => ([], s)
  | S r =>
      let (row, s1) := draw cols s in
      let (rest, s2) := draw_rows r cols s1 in
      (row :: rest, s2)
  end.

(** [np.random.seed(seed)]: resets the global generator; seeds outside
    [0, 2^32) are refused. *)
Definition np_random_seed (seed : Z) : Py unit :=
  fun w =>
    if (0 <=? seed) && (seed <? 2 ^ 32)
    then (mkWorld _ (bg_seed seed) (w_fs w) (w_stdout w), Ok tt)
    else (w, Raise ValueError).

(** [np.random.rand(d0, d1)]: a [d0] by [d1] array of uniform samples;
    negative dimensions are refused. *)
Definition np_random_rand (d0 d1 : Z) : Py (list (list spec_float)) :=
  fun w =>
    if (d0 <? 0) || (d1 <? 0) then (w, Raise ValueError)
    else
      let (a, s) := draw_rows (Z.to_nat d0) (Z.to_nat d1) (w_rng w) in
      (mkWorld _ s (w_fs w) (w_stdout w), Ok a).

(** [array * m] with a Python [int] [m]: elementwise float64 product. *)
Definition scale (a : list (list spec_float)) (m : Z)
  : list (list spec_float) :=
  map (map (fun x => F64.mul x (F64.of_int m))) a.

(** One row under the format [' '.join(['%.4f'] * ncol)]. *)
Definition format_row (row : list spec_float) : string :=
  String.concat " " (map format_4f row).

(** What [np.savetxt] writes for a two-dimensional array with the
    default delimiter, newline, header and footer: each row, then a
    newline; nothing before, nothing after. *)
Definition savetxt_text (a : list (list spec_float)) : string :=
  String.concat "" (map (fun row => format_row row +:+ newline) a).

(** [np.savetxt(path, a, fmt='%.4f')]: open for writing (which creates or
    truncates), write every row, close. An [OSError] is not caught. *)
Definition np_savetxt (path : string) (a : list (list spec_float)) : Py unit :=
  fun w =>
    match open_wt (w_fs w) path with
    | inl e => (w, Raise (OSError e))
    | inr fs1 =>
        match write_close fs1 path (savetxt_text a) with
        | (fs2, None) => (mkWorld _ (w_rng w) fs2 (w_stdout w), Ok tt)
        | (fs2, Some e) =>
            (mkWorld _ (w_rng w) fs2 (w_stdout w), Raise (OSError e))
        end
    end.

(** [print(a, b, c)]: the arguments' texts, single spaces between, and a
    newline, appended to standard output. *)
Definition print (args : list string) : Py unit :=
  fun w =>
    (mkWorld _ (w_rng w) (w_fs w)
       (w_stdout w +:+ String.concat " " args +:+ newline), Ok tt).

(** The body of the script with its constants as parameters. *)
Definition generate (seed num_points max_coordinate : Z) (file_path : string)
  : Py unit :=
  np_random_seed seed ;;
  samples <- np_random_rand num_points 3 ;;
  let points := scale samples max_coordinate in
  np_savetxt file_path points ;;
  print [string_of_Z num_points; "points are written to"; file_path].

Definition MAX_COORDINATE : Z := 100000.
Definition NUM_POINTS : Z := 100000.
Definition FILE_PATH : string := "./data/points.txt".

(** The script. *)
Definition main : Py unit :=
  generate 1701 NUM_POINTS MAX_COORDINATE FILE_PATH.


(** The points the script holds in memory, as a function of its
    constants alone. *)
Definition points_of (seed num_points max_coordinate : Z)
  : list (list spec_float) :=
  scale (fst (draw_rows (Z.to_nat num_points) 3 (bg_seed seed))) max_coordinate.

(** Point [i] as the specification words it: samples [3i], [3i+1] and
    [3i+2] of the seeded stream, each multiplied by the scale. *)
Definition spec_point (seed max_coordinate : Z) (i : nat) : list spec_float :=
  map (fun j => F64.mul (sample_at (bg_seed seed) (3 * i + j))
                        (F64.of_int max_coordinate))
      [0; 1; 2]%nat.

End Script.

(** ** MT19937, the bit generator behind [np.random.seed] and
    [np.random.rand] *)

Module MT19937.

Definition mask32 : Z := 4294967295.
Definition upper_mask : Z := 2147483648.
Definition lower_mask : Z := 2147483647.
Definition matrix_a : Z := 2567483615.

Record state : Type := mkState { key : list Z; pos : nat }.

(** [mt19937_seed]: [key[0] = seed],
    [key[i] = 1812433253 * (key[i-1] ^ (key[i-1] >> 30)) + i]. *)
Fixpoint init_key (n : nat) (i : Z) (s : Z) : list Z :=
  match n with
  | O => []
  | S n' =>
      s :: init_key n' (i + 1)
             (Z.land (1812433253 * Z.lxor s (Z.shiftr s 30) + i + 1) mask32)
  end.

Definition seed (s : Z) : state :=
  mkState (init_key 624 0 (Z.land s mask32)) 624.

(** One word of the recurrence, from [key[i]], [key[i+1]] and
    [key[i+397 mod 624]]. *)
Definition twist (k0 k1 km : Z) : Z :=
  let y := Z.lor (Z.land k0 upper_mask) (Z.land k1 lower_mask) in
  Z.lxor (Z.lxor km (Z.shiftr y 1)) (if Z.odd y then matrix_a else 0).

Fixpoint twist3 (a b c : list Z) : list Z :=
  match a, b, c with
  | x :: a', y :: b', z :: c' => twist x y z :: twist3 a' b' c'
  | _, _, _ => []
  end.

(** [mt19937_gen]: the in-place regeneration of the 624 words. Words
    0..226 read old words only; words 227..622 read the new words
    0..395; the last one reads the new words 0 and 396. *)
Definition gen (k : list Z) : list Z :=
  let p1 := twist3 (firstn 227 k) (firstn 227 (skipn 1 k)) (skipn 397 k) in
  let p2 := twist3 (firstn 227 (skipn 227 k)) (firstn 227 (skipn 228 k)) p1 in
  let p3 := twist3 (firstn 169 (skipn 454 k)) (skipn 455 k) p2 in
  let l := twist (nth 623 k 0) (nth 0 p1 0) (nth 169 p2 0) in
  p1 ++ p2 ++ p3 ++ [l].

Definition temper (y : Z) : Z :=
  let y := Z.lxor y (Z.shiftr y 11) in
  let y := Z.lxor y (Z.land (Z.shiftl y 7) 2636928640) in
  let y := Z.lxor y (Z.land (Z.shiftl y 15) 4022730752) in
  Z.lxor y (Z.shiftr y 18).

(** [mt19937_next]. *)
Definition next_uint32 (s : state) : Z * state :=
  let s := if (624 <=? pos s)%nat then mkState (gen (key s)) 0 else s in
  (temper (nth (pos s) (key s) 0), mkState (key s) (S (pos s))).

#[export] Instance generator : BitGenerator :=
  {| bg_state := state; bg_seed := seed; bg_next_uint32 := next_uint32 |}.

End MT19937.

(** ** The outcome of the write, and the failure condition of the
    specification *)

(** What [np.savetxt path] does to the result of the script, read off the
    file system before the call: the error of [open], or of the write when
    the device is too full for [text], or success. *)
Definition savetxt_outcome (fs : FileSystem) (path text : string) : result unit :=
  match open_wt fs path with
  | inl e => Raise (OSError e)
  | inr fs1 =>
      if (N.of_nat (String.length text) <=? fs_free fs1)%N then Ok tt
      else Raise (OSError NoSpaceError)
  end.


(** ** Concrete generators and worlds *)


(** A working directory holding an empty, writable [./data]. *)
Definition data_dir_nodes : gmap string node :=
  insert "./data" (Dir true) (insert "" (Dir true) empty).



(** No [./data] at all. *)
Definition no_data_dir_nodes : gmap string node :=
  insert "" (Dir true) empty.

Definition mt_world (seed0 : Z) (nodes : gmap string node) (free : N)
  (out : string) : World (H := MT19937.generator) :=
  mkWorld MT19937.generator (MT19937.seed seed0) (mkFS nodes free) out.


(** The size of the file the script writes. *)
Definition main_text_size : N :=
  N.of_nat (String.length
              (savetxt_text (points_of (G := MT19937.generator)
                               1701 NUM_POINTS MAX_COORDINATE))).

(* ================================================================== *)
(** * Theorems *)
(* ================================================================== *)

(** ** Rounding of binary64 products *)

Section Rounding.

Lemma digits2_pos_bounds (p : positive) :
  2 ^ (Zpos (digits2_pos p) - 1) <= Zpos p < 2 ^ Zpos (digits2_pos p).
Proof.
  induction p as [p IH | p IH | ]; cbn [digits2_pos].
  - rewrite Pos2Z.inj_succ, (Pos2Z.inj_xI p).
    replace (Z.succ (Zpos (digits2_pos p)) - 1)
      with (Z.succ (Zpos (digits2_pos p) - 1)) by lia.
    rewrite !Z.pow_succ_r by lia. lia.
  - rewrite Pos2Z.inj_succ, (Pos2Z.inj_xO p).
    replace (Z.succ (Zpos (digits2_pos p)) - 1)
      with (Z.succ (Zpos (digits2_pos p) - 1)) by lia.
    rewrite !Z.pow_succ_r by lia. lia.
  - cbn. lia.
Qed.

Lemma Zdigits2_upper (m b : Z) :
  0 <= m -> 0 <= b -> m < 2 ^ b -> Zdigits2 m <= b.
Proof.
  intros Hm Hb Hlt. destruct m as [ | p | p ]; cbn [Zdigits2]; try lia.
  pose proof (digits2_pos_bounds p) as [Hlo _].
  assert (H : 2 ^ (Zpos (digits2_pos p) - 1) < 2 ^ b) by lia.
  apply Z.pow_lt_mono_r_iff in H; lia.
Qed.

Lemma Zdigits2_eq (p : positive) (d : Z) :
  2 ^ (d - 1) <= Zpos p < 2 ^ d -> 0 < d -> Zpos (digits2_pos p) = d.
Proof.
  intros [Hlo Hhi] Hd.
  pose proof (digits2_pos_bounds p) as [Hlo' Hhi'].
  assert (H1 : 2 ^ (d - 1) < 2 ^ Zpos (digits2_pos p)) by lia.
  assert (H2 : 2 ^ (Zpos (digits2_pos p) - 1) < 2 ^ d) by lia.
  apply Z.pow_lt_mono_r_iff in H1; try lia.
  apply Z.pow_lt_mono_r_iff in H2; lia.
Qed.

Lemma shr_1_nonneg (m : Z) (r s : bool) :
  0 <= m ->
  shr_1 (Build_shr_record m r s) =
  Build_shr_record (m / 2) (Z.odd m) (r || s).
Proof.
  intros Hm. destruct m as [ | [p | p | ] | p ]; try lia; cbn [shr_1].
  all: f_equal; try reflexivity.
  all: rewrite ?(Pos2Z.inj_xI p), ?(Pos2Z.inj_xO p);
    first [ apply Z.div_unique with (r := 1); lia
          | apply Z.div_unique with (r := 0); lia
          | symmetry; apply Z.div_unique with (r := 1); lia
          | symmetry; apply Z.div_unique with (r := 0); lia ].
Qed.

Lemma iter_pos_nat {A : Type} (f : A -> A) (p : positive) (x : A) :
  SpecFloat.iter_pos f p x = Nat.iter (Pos.to_nat p) f x.
Proof.
  revert x. induction p as [p IH | p IH | ]; intros x; cbn [SpecFloat.iter_pos].
  - rewrite !IH, Pos2Nat.inj_xI.
    replace (S (2 * Pos.to_nat p)) with (Pos.to_nat p + S (Pos.to_nat p))%nat by lia.
    rewrite Nat.iter_add. f_equal. symmetry. apply Nat.iter_succ_r.
  - rewrite !IH, Pos2Nat.inj_xO.
    replace (2 * Pos.to_nat p)%nat with (Pos.to_nat p + Pos.to_nat p)%nat by lia.
    rewrite Nat.iter_add. reflexivity.
  - reflexivity.
Qed.

Lemma shifted_iter (m0 : Z) (k : nat) :
  0 <= m0 ->
  shifted m0 k (Nat.iter k shr_1 (Build_shr_record m0 false false)).
Proof.
  intros Hm0. induction k as [ | k IH].
  - exists 0, 0. cbn. repeat split; lia.
  - rewrite Nat.iter_succ.
    destruct (Nat.iter k shr_1 _) as [m r s].
    destruct IH as (rem & t & Hm & Hdec & Hrem & Ht & Htr & Hs).
    cbn [shr_m shr_r shr_s] in *.
    rewrite shr_1_nonneg by assumption. unfold shifted.
    rewrite Nat2Z.inj_succ, Z.pow_succ_r by lia.
    set (T := 2 ^ Z.of_nat k) in *.
    assert (HT : 0 < T) by (apply Z.pow_pos_nonneg; lia).
    pose proof (Zdiv2_odd_eqn m) as Hodd. rewrite Z.div2_div in Hodd.
    exists ((if Z.odd m then T else 0) + rem), (2 * rem).
    cbn [shr_m shr_r shr_s].
    assert (Hq : 0 <= m / 2) by (apply Z.div_pos; lia).
    repeat split; try (destruct (Z.odd m); lia).
    + intros Hrs. apply orb_false_elim in Hrs as [Hr Hs'].
      subst r. apply Hs in Hs'. lia.
    + intros H2. destruct r; [lia | ].
      cbn. apply Hs. lia.
Qed.

Lemma round_shifted (m0 : Z) (k : nat) (x : shr_record) :
  shifted m0 k x ->
  let m := round_nearest_even (shr_m x) (loc_of_shr_record x) in
  0 <= m /\
  - 2 ^ Z.of_nat k <= 2 * m * 2 ^ Z.of_nat k - 2 * m0 <= 2 ^ Z.of_nat k.
Proof.
  intros (rem & t & Hm & Hdec & Hrem & Ht & Htr & Hs).
  destruct x as [m r s]. cbn [shr_m shr_r shr_s] in *.
  set (T := 2 ^ Z.of_nat k) in *.
  destruct r, s; cbn [loc_of_shr_record round_nearest_even].
  - assert (t <> 0) by (intros E; apply Hs in E; discriminate). nia.
  - assert (t = 0) by (apply Hs; reflexivity).
    destruct (Z.even m); nia.
  - assert (t <> 0) by (intros E; apply Hs in E; discriminate). nia.
  - assert (t = 0) by (apply Hs; reflexivity). nia.
Qed.

(** [shr] from an exact record, for any shift count. *)
Lemma shr_shifted (m0 e n : Z) :
  0 <= m0 ->
  let k := Z.to_nat n in
  shifted m0 k (fst (shr (Build_shr_record m0 false false) e n)) /\
  snd (shr (Build_shr_record m0 false false) e n) = e + Z.of_nat k.
Proof.
  intros Hm0 k. subst k.
  destruct n as [ | p | p ]; cbn [shr fst snd Z.to_nat].
  - split; [apply (shifted_iter m0 0 Hm0) | cbn; lia].
  - rewrite iter_pos_nat. split; [apply shifted_iter; exact Hm0 | lia].
  - split; [apply (shifted_iter m0 0 Hm0) | cbn; lia].
Qed.

(** The rounding of [mx * 2^ex] step by step: a first shift by [k] bits
    to the target exponent and a rounding to [m2], within half a unit;
    a second shift by [k2] bits, which only applies when the rounding
    carried into one more bit. *)
Lemma binary_round_aux_spec (s : bool) (mx : positive) (ex : Z) :
  exists k m2 k2 m3 : Z,
    k = Z.max (fexp F64.prec F64.emax (Zpos (digits2_pos mx) + ex) - ex) 0 /\
    0 <= m2 /\
    - 2 ^ k <= 2 * m2 * 2 ^ k - 2 * Zpos mx <= 2 ^ k /\
    k2 = Z.max (fexp F64.prec F64.emax (Zdigits2 m2 + (ex + k)) - (ex + k)) 0 /\
    0 <= m3 /\
    m3 * 2 ^ k2 <= m2 /\
    binary_round_aux F64.prec F64.emax s (Zpos mx) ex loc_Exact =
    match m3 with
    | Z0 => S754_zero s
    | Zpos m =>
        if ex + k + k2 <=? F64.emax - F64.prec
        then S754_finite s m (ex + k + k2) else S754_infinity s
    | Zneg _ => S754_nan
    end.
Proof.
  unfold binary_round_aux, shr_fexp.
  cbn [shr_record_of_loc Zdigits2].
  set (n := fexp F64.prec F64.emax (Zpos (digits2_pos mx) + ex) - ex).
  destruct (shr_shifted (Zpos mx) ex n ltac:(lia)) as [Hsh He].
  destruct (shr (Build_shr_record (Zpos mx) false false) ex n) as [x e1].
  cbn [fst snd] in Hsh, He.
  pose proof (round_shifted _ _ _ Hsh) as [Hm2 Herr].
  set (m2 := round_nearest_even (shr_m x) (loc_of_shr_record x)) in *.
  set (n2 := fexp F64.prec F64.emax (Zdigits2 m2 + e1) - e1).
  destruct (shr_shifted m2 e1 n2 Hm2) as [Hsh2 He2].
  destruct (shr (Build_shr_record m2 false false) e1 n2) as [y e2].
  cbn [fst snd] in Hsh2, He2.
  destruct Hsh2 as (rem & t & Hm3 & Hdec & Hrem & _).
  assert (Hk : Z.of_nat (Z.to_nat n) = Z.max n 0) by lia.
  assert (Hk2 : Z.of_nat (Z.to_nat n2) = Z.max n2 0) by lia.
  exists (Z.max n 0), m2, (Z.max n2 0), (shr_m y).
  rewrite Hk in *. rewrite Hk2 in *. subst e1 e2.
  repeat split; try assumption; try lia.
Qed.

End Rounding.

(** ** The scaled samples stay below [MAX_COORDINATE] *)

Section Samples.

Lemma of_int_max :
  F64.of_int 100000 = S754_finite false 6871947673600000 (-36).
Proof. vm_compute. reflexivity. Qed.

Lemma pow2_split (a b : Z) : 0 <= a -> 0 <= b -> 2 ^ (a + b) = 2 ^ a * 2 ^ b.
Proof. intros. apply Z.pow_add_r; assumption. Qed.

Lemma pow2_pos (a : Z) : 0 <= a -> 0 < 2 ^ a.
Proof. intros. apply Z.pow_pos_nonneg; lia. Qed.

(** The product of a double below 1 with [100000.0], correctly rounded,
    is a double below 100000: the last double before 1 is [1 - 2^-53],
    and [100000 * (1 - 2^-53)] lies more than half a unit in the last
    place under 100000. *)
Lemma mul_max_lt (u : spec_float) :
  F64.in_unit_interval u = true ->
  F64.nonneg_lt (F64.mul u (F64.of_int 100000)) 100000 = true.
Proof.
  intros Hu. rewrite of_int_max.
  destruct u as [ [ | ] | | | [ | ] m e ]; try discriminate Hu.
  { reflexivity. }
  cbn [F64.in_unit_interval] in Hu.
  apply andb_prop in Hu as [Hu Hlt]. apply andb_prop in Hu as [Hm He].
  apply Z.ltb_lt in Hm, He, Hlt. unfold F64.prec in Hm.
  unfold F64.mul. cbn [SFmul xorb].
  destruct (binary_round_aux_spec false (m * 6871947673600000) (e + -36))
    as (k & m2 & k2 & m3 & Hk & Hm2 & Herr & Hk2 & Hm3 & Hle & Heq).
  fold F64.prec F64.emax. rewrite Heq. clear Heq.
  pose proof (digits2_pos_bounds (m * 6871947673600000)) as [Hdlo Hdhi].
  set (d := Zpos (digits2_pos (m * 6871947673600000))) in *.
  assert (Hd0 : 0 < d) by (subst d; lia).
  rewrite Pos2Z.inj_mul in *.
  set (M0 := 6871947673600000) in *.
  assert (HM0 : 2 ^ 52 < M0 < 2 ^ 53) by (subst M0; cbn; lia).
  set (n := - e) in *.
  assert (Hn : 1 <= n) by lia.
  assert (HTn : 0 < 2 ^ n) by (apply pow2_pos; lia).
  (* the product has at most [53 + n] bits *)
  assert (Hprod : Zpos m * M0 < 2 ^ (53 + n)).
  { rewrite pow2_split by lia. nia. }
  assert (Hd : d <= 53 + n).
  { assert (H : 2 ^ (d - 1) < 2 ^ (53 + n)) by lia.
    apply Z.pow_lt_mono_r_iff in H; lia. }
  unfold fexp, emin, F64.prec, F64.emax in Hk, Hk2.
  set (e1 := e + -36 + k) in *.
  assert (He1 : e1 <= -36 /\ -1074 <= e1 /\ 0 <= k /\ d - 53 <= k) by lia.
  destruct He1 as (He1 & He1' & Hk0 & Hkd).
  assert (HTk : 0 < 2 ^ k) by (apply pow2_pos; lia).
  (* the rounded mantissa has at most 53 bits, or is [2^53] *)
  assert (Hm2hi : m2 <= 2 ^ 53).
  { assert (H : Zpos m * M0 < 2 ^ 53 * 2 ^ k).
    { rewrite <- pow2_split by lia.
      apply Z.lt_le_trans with (2 ^ d); [lia | ].
      apply Z.pow_le_mono_r; lia. }
    nia. }
  (* and stays below [100000 * 2^(-e1)] *)
  set (j := -36 - e1).
  assert (Hj : 0 <= j) by lia.
  assert (Hbound : m2 < M0 * 2 ^ j).
  { destruct (Z.eq_dec j 0) as [Hj0 | Hj0].
    - rewrite Hj0. rewrite Z.pow_0_r, Z.mul_1_r.
      assert (Hkn : k = n) by lia. rewrite Hkn in Herr.
      destruct (Z_lt_le_dec m2 M0) as [ | Hge]; [assumption | exfalso].
      assert (H1 : 2 * M0 * (2 ^ n - Zpos m) <= 2 ^ n) by nia.
      destruct (Z_le_gt_dec (2 ^ n) (2 ^ 53)) as [Hsmall | Hbig].
      + assert (1 <= 2 ^ n - Zpos m) by lia. nia.
      + assert (2 ^ n - 2 ^ 53 + 1 <= 2 ^ n - Zpos m) by lia.
        assert (H2 : 2 * M0 * (2 ^ n - 2 ^ 53 + 1) <= 2 ^ n) by nia.
        assert (H3 : 2 ^ 53 * (2 ^ n - 2 ^ 53 + 1) <= 2 ^ n) by nia.
        nia.
    - assert (H : 2 ^ 1 <= 2 ^ j) by (apply Z.pow_le_mono_r; lia).
      change (2 ^ 1) with 2 in H. nia. }
  (* at most one more shift, after a carry *)
  assert (Hdm2 : Zdigits2 m2 <= 54).
  { apply Zdigits2_upper; lia. }
  assert (Hk2' : 0 <= k2 <= 1) by lia.
  assert (HTk2 : 0 < 2 ^ k2) by (apply pow2_pos; lia).
  assert (Hexp : 2 ^ (- (e1 + k2)) * 2 ^ k2 = 2 ^ 36 * 2 ^ j).
  { rewrite <- !pow2_split by lia.
    replace (- (e1 + k2) + k2) with (36 + j) by lia. reflexivity. }
  destruct m3 as [ | q | q ]; [reflexivity | | lia].
  replace (e + -36 + k + k2) with (e1 + k2) by (subst e1; lia).
  unfold F64.emax, F64.prec.
  destruct (Z.leb_spec (e1 + k2) (1024 - 53)) as [ _ | Hbad ]; [ | lia].
  cbn [F64.nonneg_lt].
  destruct (Z.ltb_spec (e1 + k2) 0) as [ _ | Hbad ]; [ | lia].
  apply Z.ltb_lt.
  assert (H100 : M0 = 100000 * 2 ^ 36) by (subst M0; reflexivity).
  nia.
Qed.

Lemma iter_xO_mul (p q : positive) :
  Zpos (Pos.iter xO p q) = Zpos p * 2 ^ Zpos q.
Proof.
  apply (Pos.iter_ind _ xO p
           (fun q' a => Zpos a = Zpos p * 2 ^ Zpos q')).
  - rewrite (Pos2Z.inj_xO p). change (2 ^ 1) with 2. lia.
  - intros q' a IH. rewrite (Pos2Z.inj_xO a), IH, Pos2Z.inj_succ.
    rewrite Z.pow_succ_r by lia. lia.
Qed.

(** [k / 2^53] for a 53-bit [k] is a double of the unit interval. *)
Lemma normalize_in_unit (k : Z) :
  0 <= k < 2 ^ 53 ->
  F64.in_unit_interval (binary_normalize F64.prec F64.emax k (-53) false) = true.
Proof.
  intros [Hk0 Hk]. destruct k as [ | p | p ]; [reflexivity | | lia].
  unfold binary_normalize, binary_round, shl_align.
  pose proof (digits2_pos_bounds p) as [Hdlo Hdhi].
  set (d := Zpos (digits2_pos p)) in *.
  assert (Hd : 0 < d <= 53).
  { split; [subst d; lia | ].
    assert (H : 2 ^ (d - 1) < 2 ^ 53) by lia.
    apply Z.pow_lt_mono_r_iff in H; lia. }
  assert (Hf : fexp F64.prec F64.emax (d + -53) = d - 106)
    by (unfold fexp, emin, F64.prec, F64.emax; lia).
  rewrite Hf.
  assert (Hgoal : forall mz ez,
             2 ^ 52 <= Zpos mz < 2 ^ 53 -> -105 <= ez <= -53 ->
             F64.in_unit_interval
               (binary_round_aux F64.prec F64.emax false (Zpos mz) ez loc_Exact)
             = true).
  { intros mz ez Hmz Hez.
    destruct (binary_round_aux_spec false mz ez)
      as (k & m2 & k2 & m3 & Hk1 & Hm2 & Herr & Hk2 & Hm3 & Hle & Heq).
    rewrite Heq. clear Heq.
    rewrite (Zdigits2_eq mz 53) in Hk1 by (cbn; lia).
    unfold fexp, emin, F64.prec, F64.emax in Hk1, Hk2.
    assert (k = 0) by lia. clear Hk1. subst k.
    change (2 ^ 0) with 1 in Herr.
    assert (m2 = Zpos mz) by lia. subst m2.
    cbn [Zdigits2] in Hk2.
    rewrite (Zdigits2_eq mz 53) in Hk2 by (cbn; lia).
    assert (k2 = 0) by lia. clear Hk2. subst k2.
    change (2 ^ 0) with 1 in Hle.
    destruct m3 as [ | q | q ]; [reflexivity | | lia].
    unfold F64.emax, F64.prec.
    destruct (Z.leb_spec (ez + 0 + 0) (1024 - 53)) as [ _ | ]; [ | lia].
    cbn [F64.in_unit_interval]. unfold F64.prec.
    assert (H53 : 2 ^ 53 <= 2 ^ (- (ez + 0 + 0)))
      by (apply Z.pow_le_mono_r; lia).
    apply andb_true_intro; split; [apply andb_true_intro; split | ].
    - apply Z.ltb_lt. lia.
    - apply Z.ltb_lt. lia.
    - apply Z.ltb_lt. lia. }
  destruct (d - 106 - -53) as [ | q | q ] eqn:Ediff.
  - apply Hgoal; [ | lia].
    assert (d = 53) by lia.
    replace (d - 1) with 52 in Hdlo by lia. lia.
  - lia.
  - assert (Hq : Zpos q = 53 - d) by lia.
    apply Hgoal; [ | lia].
    rewrite iter_xO_mul, Hq.
    assert (H52 : 2 ^ 52 = 2 ^ (d - 1) * 2 ^ (53 - d)).
    { rewrite <- pow2_split by lia. f_equal. lia. }
    assert (H53 : 2 ^ 53 = 2 ^ d * 2 ^ (53 - d)).
    { rewrite <- pow2_split by lia. f_equal. lia. }
    assert (0 < 2 ^ (53 - d)) by (apply pow2_pos; lia).
    rewrite H52, H53. nia.
Qed.

Context `{G : BitGenerator}.

Lemma next_double_in_unit (s : bg_state) :
  F64.in_unit_interval (fst (next_double s)) = true.
Proof.
  unfold next_double.
  destruct (bg_next_uint32 s) as [x s1].
  destruct (bg_next_uint32 s1) as [y s2]. cbn [fst].
  apply normalize_in_unit.
  rewrite !Z.shiftr_div_pow2 by lia.
  pose proof (Z.mod_pos_bound x (2 ^ 32) ltac:(lia)) as Hx.
  pose proof (Z.mod_pos_bound y (2 ^ 32) ltac:(lia)) as Hy.
  assert (0 <= x mod 2 ^ 32 / 2 ^ 5 < 2 ^ 27).
  { split; [apply Z.div_pos; lia | apply Z.div_lt_upper_bound; lia]. }
  assert (0 <= y mod 2 ^ 32 / 2 ^ 6 < 2 ^ 26).
  { split; [apply Z.div_pos; lia | apply Z.div_lt_upper_bound; lia]. }
  lia.
Qed.

End Samples.

(** ** Text: digits, splitting, ['%.4f'] and reading it back *)

Section Text.

Lemma append_nil_l (s : string) : "" +:+ s = s.
Proof. reflexivity. Qed.

Lemma append_cons (c : ascii) (a b : string) :
  String c a +:+ b = String c (a +:+ b).
Proof. reflexivity. Qed.

Lemma append_empty_r (s : string) : s +:+ "" = s.
Proof.
  induction s as [ | c s IH]; [reflexivity | ].
  rewrite append_cons, IH. reflexivity.
Qed.

Lemma append_assoc (a b c : string) : (a +:+ b) +:+ c = a +:+ (b +:+ c).
Proof.
  induction a as [ | x a IH]; [reflexivity | ].
  rewrite !append_cons, IH. reflexivity.
Qed.

Lemma has_char_app (c : ascii) (a b : string) :
  has_char c (a +:+ b) = has_char c a || has_char c b.
Proof.
  induction a as [ | x a IH]; [reflexivity | ].
  rewrite append_cons. cbn [has_char]. rewrite IH. apply orb_assoc.
Qed.

Lemma all_digits_app (a b : string) :
  all_digits (a +:+ b) = all_digits a && all_digits b.
Proof.
  induction a as [ | x a IH]; [reflexivity | ].
  rewrite append_cons. cbn [all_digits]. rewrite IH. apply andb_assoc.
Qed.

Lemma all_digits_no_char (c : ascii) (s : string) :
  is_digit c = false -> all_digits s = true -> has_char c s = false.
Proof.
  intros Hc. induction s as [ | x s IH]; cbn; [reflexivity | ].
  intros H. apply andb_prop in H as [Hx Hs].
  rewrite (IH Hs), orb_false_r.
  destruct (Ascii.eqb_spec x c) as [-> | ]; [congruence | reflexivity].
Qed.

Lemma split_on_none (sep : ascii) (s : string) :
  has_char sep s = false -> split_on sep s = [s].
Proof.
  induction s as [ | c s IH]; cbn; [reflexivity | ].
  intros H. apply orb_false_elim in H as [Hc Hs].
  rewrite Hc, (IH Hs). reflexivity.
Qed.

Lemma split_on_app (sep : ascii) (a b : string) :
  has_char sep a = false ->
  split_on sep (a +:+ String sep b) = a :: split_on sep b.
Proof.
  induction a as [ | c a IH].
  - intros _. rewrite append_nil_l. cbn [split_on].
    now rewrite Ascii.eqb_refl.
  - cbn [has_char]. intros H. apply orb_false_elim in H as [Hc Ha].
    rewrite append_cons. cbn [split_on].
    rewrite Hc, (IH Ha). reflexivity.
Qed.

Lemma string_of_uint_digits (d : Decimal.uint) :
  all_digits (NilEmpty.string_of_uint d) = true.
Proof. induction d; cbn; try reflexivity; assumption. Qed.

Lemma string_of_N_digits (n : N) : all_digits (string_of_N n) = true.
Proof. apply string_of_uint_digits. Qed.

Lemma string_of_N_nonempty (n : N) : string_of_N n <> "".
Proof.
  unfold string_of_N. intros H.
  pose proof (NilEmpty.usu (N.to_uint n)) as Hu. rewrite H in Hu.
  cbn in Hu. injection Hu as Hu.
  pose proof (DecimalN.Unsigned.of_to n) as Hn. rewrite <- Hu in Hn.
  cbn in Hn. subst n. discriminate Hu.
Qed.

Lemma parse_digits_string_of_N (n : N) :
  parse_digits (string_of_N n) = Some n.
Proof.
  unfold parse_digits.
  pose proof (string_of_N_nonempty n) as Hne.
  rewrite string_of_N_digits.
  destruct (string_of_N n) eqn:E; [congruence | ].
  rewrite <- E. unfold string_of_N.
  rewrite NilEmpty.usu. cbn. now rewrite DecimalN.Unsigned.of_to.
Qed.

Lemma digit_uint_shape (d : Z) (rest : Decimal.uint) :
  exists c, is_digit c = true /\
    NilEmpty.string_of_uint (digit_uint d rest)
    = String c (NilEmpty.string_of_uint rest).
Proof.
  unfold digit_uint.
  repeat match goal with
         | |- context [match ?p with _ => _ end] => destruct p
         end;
    eexists; (split; [ | reflexivity ]); reflexivity.
Qed.

Lemma digits4_shape (f : Z) :
  all_digits (digits4 f) = true /\ String.length (digits4 f) = 4%nat
  /\ digits4 f <> "".
Proof.
  unfold digits4, digits4_uint.
  destruct (digit_uint_shape (f / 1000)
              (digit_uint (f / 100 mod 10) (digit_uint (f / 10 mod 10)
                 (digit_uint (f mod 10) Decimal.Nil)))) as (c3 & H3 & ->).
  destruct (digit_uint_shape (f / 100 mod 10)
              (digit_uint (f / 10 mod 10)
                 (digit_uint (f mod 10) Decimal.Nil))) as (c2 & H2 & ->).
  destruct (digit_uint_shape (f / 10 mod 10)
              (digit_uint (f mod 10) Decimal.Nil)) as (c1 & H1 & ->).
  destruct (digit_uint_shape (f mod 10) Decimal.Nil) as (c0 & H0 & ->).
  cbn. rewrite H3, H2, H1, H0. repeat split; discriminate.
Qed.

Lemma digits4_value_all :
  forallb (fun i => N.eqb (N.of_uint (digits4_uint (Z.of_nat i))) (N.of_nat i))
          (seq 0 (Z.to_nat 10000)) = true.
Proof. vm_compute. reflexivity. Qed.

Lemma digits4_value (f : Z) :
  0 <= f < 10000 -> N.of_uint (digits4_uint f) = Z.to_N f.
Proof.
  intros Hf. pose proof digits4_value_all as H.
  rewrite forallb_forall in H.
  specialize (H (Z.to_nat f)).
  rewrite Z2Nat.id in H by lia.
  assert (Hin : In (Z.to_nat f) (seq 0 (Z.to_nat 10000)))
    by (apply in_seq; lia).
  apply H in Hin. apply N.eqb_eq in Hin. rewrite Hin. lia.
Qed.

Lemma parse_digits_digits4 (f : Z) :
  0 <= f < 10000 -> parse_digits (digits4 f) = Some (Z.to_N f).
Proof.
  intros Hf. unfold parse_digits.
  destruct (digits4_shape f) as (Hd & _ & Hne).
  rewrite Hd. destruct (digits4 f) eqn:E; [congruence | ].
  rewrite <- E. unfold digits4.
  rewrite NilEmpty.usu. cbn [option_map]. now rewrite digits4_value.
Qed.

Lemma dot_not_digit : is_digit "." = false.
Proof. reflexivity. Qed.

Lemma space_not_digit : is_digit " " = false.
Proof. reflexivity. Qed.

Lemma nl_not_digit : is_digit nl = false.
Proof. reflexivity. Qed.

Lemma split_fixed4 (n : Z) :
  split_on "." (fixed4 n)
  = [string_of_N (Z.to_N (n / 10000)); digits4 (n mod 10000)].
Proof.
  unfold fixed4. rewrite append_cons, append_nil_l.
  rewrite split_on_app
    by (apply all_digits_no_char;
        [exact dot_not_digit | apply string_of_N_digits]).
  rewrite split_on_none; [reflexivity | ].
  apply all_digits_no_char; [exact dot_not_digit | ].
  apply (digits4_shape (n mod 10000)).
Qed.

Lemma is_fixed4_fixed4 (n : Z) : is_fixed4 (fixed4 n) = true.
Proof.
  unfold is_fixed4. rewrite split_fixed4.
  destruct (digits4_shape (n mod 10000)) as (Hd & Hl & _).
  rewrite string_of_N_digits, Hd, Hl.
  destruct (String.eqb_spec (string_of_N (Z.to_N (n / 10000))) "") as [E | ];
    [now apply string_of_N_nonempty in E | reflexivity].
Qed.

(** Reading back what was written gives the printed number exactly. *)
Lemma parse_fixed4 (n : Z) :
  0 <= n -> parse_fixed (fixed4 n) = Some (Qmake n 10000).
Proof.
  intros Hn. unfold parse_fixed. rewrite split_fixed4.
  rewrite parse_digits_string_of_N.
  rewrite parse_digits_digits4 by (apply Z.mod_pos_bound; lia).
  destruct (digits4_shape (n mod 10000)) as (_ & Hl & _).
  rewrite Hl.
  change (Pos.pow 10 (Pos.of_nat 4)) with 10000%positive. cbv zeta.
  rewrite !Z2N.id
    by (try (apply Z.div_pos; lia); apply Z.mod_pos_bound; lia).
  f_equal. f_equal.
  pose proof (Z.div_mod n 10000 ltac:(lia)). lia.
Qed.

Lemma has_char_fixed4 (c : ascii) (n : Z) :
  is_digit c = false -> c <> "."%char -> has_char c (fixed4 n) = false.
Proof.
  intros Hc Hdot. unfold fixed4.
  rewrite !has_char_app.
  rewrite (all_digits_no_char c _ Hc (string_of_N_digits _)).
  rewrite (all_digits_no_char c _ Hc (proj1 (digits4_shape _))).
  cbn [has_char].
  destruct (Ascii.eqb_spec "." c) as [E | ]; [congruence | reflexivity].
Qed.

Lemma has_char_format_4f (c : ascii) (x : spec_float) :
  c = nl \/ c = " "%char -> has_char c (format_4f x) = false.
Proof.
  intros Hc.
  assert (Hd : is_digit c = false) by (destruct Hc; subst c; reflexivity).
  assert (Hdot : c <> "."%char) by (destruct Hc; subst c; discriminate).
  assert (Hsign : forall s, has_char c (sign_text s) = false).
  { intros [ | ]; destruct Hc; subst c; reflexivity. }
  destruct x as [s | s | | s m e]; cbn [format_4f].
  - rewrite has_char_app, Hsign. destruct Hc; subst c; reflexivity.
  - rewrite has_char_app, Hsign. destruct Hc; subst c; reflexivity.
  - destruct Hc; subst c; reflexivity.
  - rewrite has_char_app, Hsign. now apply has_char_fixed4.
Qed.

Lemma round_half_even_bounds (num k : Z) :
  0 <= num -> 0 <= k ->
  0 <= round_half_even num k /\
  - 2 ^ k <= 2 * round_half_even num k * 2 ^ k - 2 * num <= 2 ^ k.
Proof.
  intros Hnum Hk. unfold round_half_even.
  assert (HT : 0 < 2 ^ k) by (apply Z.pow_pos_nonneg; lia).
  pose proof (Z.div_mod num (2 ^ k) ltac:(lia)) as Hdm.
  pose proof (Z.mod_pos_bound num (2 ^ k) HT) as Hr.
  assert (Hq : 0 <= num / 2 ^ k) by (apply Z.div_pos; lia).
  set (q := num / 2 ^ k) in *. set (r := num mod 2 ^ k) in *.
  destruct (Z.compare_spec (2 * r) (2 ^ k)); [destruct (Z.even q) | | ]; nia.
Qed.

Lemma scaled4_nonneg (m : positive) (e : Z) : 0 <= scaled4 m e.
Proof.
  unfold scaled4. destruct (Z.leb_spec 0 e).
  - assert (0 < 2 ^ e) by (apply Z.pow_pos_nonneg; lia). nia.
  - apply round_half_even_bounds; lia.
Qed.

Lemma units4_nonneg (x : spec_float) : 0 <= units4 x.
Proof. destruct x; cbn; try lia. apply scaled4_nonneg. Qed.

Lemma format_4f_nonneg (x : spec_float) :
  F64.nonneg x = true -> format_4f x = fixed4 (units4 x).
Proof.
  destruct x as [ [ | ] | | | [ | ] m e ]; try discriminate; reflexivity.
Qed.

Lemma nonneg_lt_nonneg (x : spec_float) (z : Z) :
  F64.nonneg_lt x z = true -> F64.nonneg x = true.
Proof.
  destruct x as [ [ | ] | | | [ | ] m e ]; try discriminate; reflexivity.
Qed.

Lemma Zpos_pow2 (k : Z) : 0 <= k -> Zpos (F64.pow2 k) = 2 ^ k.
Proof.
  intros Hk. unfold F64.pow2.
  apply Z2Pos.id. apply Z.pow_pos_nonneg; lia.
Qed.



(** A double below [z] prints as at most [z]: rounding to four decimals
    can reach [z] itself, never pass it. *)
Lemma units4_le (x : spec_float) (z : Z) :
  F64.nonneg_lt x z = true -> units4 x <= z * 10000.
Proof.
  destruct x as [ [ | ] | | | [ | ] m e ]; try (intros H; discriminate H);
    cbn [F64.nonneg_lt units4].
  - intros H. apply Z.ltb_lt in H. lia.
  - unfold scaled4.
    destruct (Z.leb_spec 0 e) as [He | He];
      destruct (Z.ltb_spec e 0) as [He' | He']; try lia;
      intros H; apply Z.ltb_lt in H.
    pose proof (round_half_even_bounds (Zpos m * 10000) (- e)
                  ltac:(lia) ltac:(lia)) as [H0 Herr].
    set (r := round_half_even (Zpos m * 10000) (- e)) in *.
    assert (HT : 0 < 2 ^ (- e)) by (apply Z.pow_pos_nonneg; lia).
    set (T := 2 ^ (- e)) in *.
    nia.
Qed.

End Text.

(** ** The text of the file, line by line *)

Section Lines.

Lemma concat_empty_cons (x : string) (l : list string) :
  String.concat "" (x :: l) = x +:+ String.concat "" l.
Proof.
  destruct l as [ | y l]; cbn [String.concat].
  - now rewrite append_empty_r.
  - now rewrite append_nil_l.
Qed.

Lemma has_char_concat (c : ascii) (sep : string) (l : list string) :
  has_char c sep = false ->
  Forall (fun s => has_char c s = false) l ->
  has_char c (String.concat sep l) = false.
Proof.
  intros Hsep Hl. induction Hl as [ | x l Hx Hl IH]; [reflexivity | ].
  destruct l as [ | y l]; cbn [String.concat]; [exact Hx | ].
  rewrite !has_char_app, Hx, Hsep. exact IH.
Qed.

Lemma has_char_format_row (c : ascii) (row : list spec_float) :
  c = nl -> has_char c (format_row row) = false.
Proof.
  intros ->. unfold format_row. apply has_char_concat; [reflexivity | ].
  apply List.Forall_map, List.Forall_forall. intros x _.
  apply has_char_format_4f. now left.
Qed.

Lemma split_lines_savetxt (a : list (list spec_float)) :
  split_on nl (savetxt_text a) = map format_row a ++ [""].
Proof.
  unfold savetxt_text. induction a as [ | row a IH]; [reflexivity | ].
  cbn [map]. rewrite concat_empty_cons.
  unfold newline at 1. rewrite append_assoc, append_cons, append_nil_l.
  rewrite split_on_app by (now apply has_char_format_row).
  rewrite IH. reflexivity.
Qed.

(** The file [np.savetxt] writes has one newline-terminated line per row,
    the rows' texts in order, and nothing else. *)
Lemma file_lines_savetxt (a : list (list spec_float)) :
  file_lines (savetxt_text a) = Some (map format_row a).
Proof.
  unfold file_lines. rewrite split_lines_savetxt.
  rewrite last_last, removelast_last. reflexivity.
Qed.

Lemma split_row3 (a b c : spec_float) :
  split_on " " (format_row [a; b; c])
  = [format_4f a; format_4f b; format_4f c].
Proof.
  unfold format_row. cbn [map String.concat].
  rewrite !append_cons, !append_nil_l.
  rewrite split_on_app by (apply has_char_format_4f; now right).
  rewrite split_on_app by (apply has_char_format_4f; now right).
  rewrite split_on_none by (apply has_char_format_4f; now right).
  reflexivity.
Qed.

End Lines.

(** ** The script, step by step *)

Section Run.

Context `{G : BitGenerator}.

Lemma state_after_add (s : bg_state) (a b : nat) :
  state_after (state_after s a) b = state_after s (b + a).
Proof. unfold state_after. now rewrite Nat.iter_add. Qed.

Lemma sample_at_after (s : bg_state) (a j : nat) :
  sample_at (state_after s a) j = sample_at s (j + a).
Proof. unfold sample_at. now rewrite state_after_add. Qed.

Lemma draw_spec (k : nat) (s : bg_state) :
  draw k s = (map (sample_at s) (seq 0 k), state_after s k).
Proof.
  revert s. induction k as [ | k IH]; intros s; [reflexivity | ].
  cbn [draw].
  destruct (next_double s) as [x s1] eqn:E.
  rewrite IH. cbn [seq map]. f_equal.
  - f_equal; [unfold sample_at, state_after; cbn; now rewrite E | ].
    rewrite <- seq_shift, map_map. apply map_ext. intros j.
    replace s1 with (state_after s 1)
      by (unfold state_after; cbn; now rewrite E).
    rewrite sample_at_after. f_equal. lia.
  - replace s1 with (state_after s 1)
      by (unfold state_after; cbn; now rewrite E).
    rewrite state_after_add. f_equal. lia.
Qed.

(** [rand] fills row [i], column [j] with sample [cols * i + j]: row-major
    order, [rows * cols] samples in all. *)
Lemma draw_rows_spec (rows cols : nat) (s : bg_state) :
  draw_rows rows cols s
  = (map (fun i => map (fun j => sample_at s (cols * i + j)) (seq 0 cols))
         (seq 0 rows),
     state_after s (rows * cols)).
Proof.
  revert s. induction rows as [ | r IH]; intros s; [reflexivity | ].
  cbn [draw_rows]. rewrite draw_spec, IH. cbn [seq map]. f_equal.
  - f_equal.
    + apply map_ext. intros j. f_equal. lia.
    + rewrite <- seq_shift, map_map. apply map_ext. intros i.
      apply map_ext. intros j. rewrite sample_at_after. f_equal. lia.
  - rewrite state_after_add. f_equal. lia.
Qed.

Lemma sample_at_in_unit (s : bg_state) (k : nat) :
  F64.in_unit_interval (sample_at s k) = true.
Proof. apply next_double_in_unit. Qed.

Lemma points_of_spec (seed n m : Z) :
  points_of seed n m = map (spec_point seed m) (seq 0 (Z.to_nat n)).
Proof.
  unfold points_of, scale, spec_point.
  rewrite draw_rows_spec. cbn [fst]. rewrite map_map.
  apply map_ext. intros i. reflexivity.
Qed.

Lemma points_of_length (seed n m : Z) :
  List.length (points_of seed n m) = Z.to_nat n.
Proof. rewrite points_of_spec, length_map, length_seq. reflexivity. Qed.

(** Every coordinate the script computes with scale [100000] is a
    double in [[0, 100000)]. *)
Lemma points_in_range (seed n : Z) (row : list spec_float) :
  In row (points_of seed n MAX_COORDINATE) ->
  exists a b c, row = [a; b; c] /\
    F64.nonneg_lt a 100000 = true /\
    F64.nonneg_lt b 100000 = true /\
    F64.nonneg_lt c 100000 = true.
Proof.
  rewrite points_of_spec. intros Hin.
  apply in_map_iff in Hin as (i & <- & _).
  unfold spec_point. cbn [map]. unfold MAX_COORDINATE.
  eexists _, _, _. split; [reflexivity | ].
  repeat split; apply mul_max_lt, sample_at_in_unit.
Qed.

(** The script unfolded: what each outcome leaves in the world. *)
Lemma generate_eq (seed n m : Z) (path : string) (w : World) :
  generate seed n m path w =
  if negb ((0 <=? seed) && (seed <? 2 ^ 32)) then (w, Raise ValueError)
  else if n <? 0
  then (mkWorld _ (bg_seed seed) (w_fs w) (w_stdout w), Raise ValueError)
  else
    let s := state_after (bg_seed seed) (Z.to_nat n * 3) in
    match open_wt (w_fs w) path with
    | inl e => (mkWorld _ s (w_fs w) (w_stdout w), Raise (OSError e))
    | inr fs1 =>
        match write_close fs1 path (savetxt_text (points_of seed n m)) with
        | (fs2, None) =>
            (mkWorld _ s fs2
               (w_stdout w
                +:+ String.concat " "
                      [string_of_Z n; "points are written to"; path]
                +:+ newline),
             Ok tt)
        | (fs2, Some e) => (mkWorld _ s fs2 (w_stdout w), Raise (OSError e))
        end
    end.
Proof.
  unfold generate, bind, np_random_seed, np_random_rand, np_savetxt, print,
    points_of.
  destruct ((0 <=? seed) && (seed <? 2 ^ 32)); cbn [negb]; [ | reflexivity].
  cbn [w_rng w_fs w_stdout].
  change (3 <? 0) with false. rewrite orb_false_r.
  destruct (n <? 0); [reflexivity | ].
  change (Z.to_nat 3) with 3%nat.
  rewrite draw_rows_spec. cbn [fst w_rng w_fs w_stdout].
  destruct (open_wt (w_fs w) path) as [e | fs1]; [reflexivity | ].
  destruct (write_close fs1 path _) as [fs2 [e | ]]; reflexivity.
Qed.

End Run.

(** ** Outcomes of the script *)

Section Outcomes.

Context `{G : BitGenerator}.

Lemma read_after_write (fs fs2 : FileSystem) (path text : string) :
  write_close fs path text = (fs2, None) -> read_file fs2 path = Some text.
Proof.
  unfold write_close.
  destruct (N.of_nat (String.length text) <=? fs_free fs)%N;
    intros H; inversion H; subst.
  unfold read_file. cbn [fs_nodes]. now rewrite lookup_insert_eq.
Qed.

(** The result of the script is decided by the seed, the count and the
    write alone. *)
Lemma generate_result (seed n m : Z) (path : string) (w : World) :
  snd (generate seed n m path w) =
  if negb ((0 <=? seed) && (seed <? 2 ^ 32)) then Raise ValueError
  else if n <? 0 then Raise ValueError
  else savetxt_outcome (w_fs w) path (savetxt_text (points_of seed n m)).
Proof.
  rewrite generate_eq. unfold savetxt_outcome.
  destruct (negb _); [reflexivity | ].
  destruct (n <? 0); [reflexivity | ]. cbv zeta.
  destruct (open_wt (w_fs w) path) as [e | fs1]; [reflexivity | ].
  unfold write_close.
  destruct (N.of_nat (String.length _) <=? fs_free fs1)%N; reflexivity.
Qed.

(** A run that completes: what it needed and what it left. *)
Lemma generate_ok_inv (seed n m : Z) (path : string) (w : World) :
  snd (generate seed n m path w) = Ok tt ->
  let w' := fst (generate seed n m path w) in
  0 <= seed < 2 ^ 32 /\ 0 <= n /\
  read_file (w_fs w') path = Some (savetxt_text (points_of seed n m)) /\
  w_stdout w' = w_stdout w
                +:+ String.concat " "
                      [string_of_Z n; "points are written to"; path]
                +:+ newline /\
  w_rng w' = state_after (bg_seed seed) (Z.to_nat n * 3).
Proof.
  rewrite generate_eq.
  destruct ((0 <=? seed) && (seed <? 2 ^ 32)) eqn:Hseed; cbn [negb];
    [ | discriminate].
  destruct (Z.ltb_spec n 0) as [ | Hn]; [discriminate | ]. cbv zeta.
  destruct (open_wt (w_fs w) path) as [e | fs1]; [discriminate | ].
  destruct (write_close fs1 path _) as [fs2 [e | ]] eqn:Hw; [discriminate | ].
  intros _. cbn [fst w_fs w_stdout w_rng].
  apply andb_prop in Hseed as [H1 H2].
  apply Z.leb_le in H1. apply Z.ltb_lt in H2.
  repeat split; try assumption; try reflexivity.
  eapply read_after_write; eassumption.
Qed.

(** A run that raises leaves standard output as it found it. *)
Lemma generate_raise_stdout (seed n m : Z) (path : string) (w : World)
  (e : exn) :
  snd (generate seed n m path w) = Raise e ->
  w_stdout (fst (generate seed n m path w)) = w_stdout w.
Proof.
  rewrite generate_eq.
  destruct (negb _); [reflexivity | ].
  destruct (n <? 0); [reflexivity | ]. cbv zeta.
  destruct (open_wt (w_fs w) path) as [oe | fs1]; [reflexivity | ].
  destruct (write_close fs1 path _) as [fs2 [oe | ]];
    [reflexivity | discriminate].
Qed.

(** A new file in a writable directory on a device with room for it:
    the run completes. *)
Lemma generate_ok_fresh (seed n m : Z) (path : string) (w : World) :
  0 <= seed < 2 ^ 32 -> 0 <= n ->
  fs_nodes (w_fs w) !! dirname path = Some (Dir true) ->
  fs_nodes (w_fs w) !! path = None ->
  (N.of_nat (String.length (savetxt_text (points_of seed n m)))
   <= fs_free (w_fs w))%N ->
  snd (generate seed n m path w) = Ok tt.
Proof.
  intros Hseed Hn Hdir Hfile Hfree.
  rewrite generate_result.
  replace ((0 <=? seed) && (seed <? 2 ^ 32)) with true by lia.
  replace (n <? 0) with false by lia. cbn [negb].
  unfold savetxt_outcome, open_wt. rewrite Hdir, Hfile. cbn [fs_free].
  apply N.leb_le in Hfree. now rewrite Hfree.
Qed.



Lemma is_point_line_row (a b c : spec_float) :
  F64.nonneg a = true -> F64.nonneg b = true -> F64.nonneg c = true ->
  is_point_line (format_row [a; b; c]) = true.
Proof.
  intros Ha Hb Hc. unfold is_point_line. rewrite split_row3.
  rewrite !format_4f_nonneg by assumption.
  now rewrite !is_fixed4_fixed4.
Qed.

(** A coordinate below [z] is read back as a number in [[0, z]]. *)
Lemma parse_coordinate (v : spec_float) (z : Z) :
  F64.nonneg_lt v z = true ->
  parse_fixed (format_4f v) = Some (Qmake (units4 v) 10000) /\
  (0 <= Qmake (units4 v) 10000 /\ Qmake (units4 v) 10000 <= inject_Z z)%Q.
Proof.
  intros Hv.
  rewrite format_4f_nonneg by (eapply nonneg_lt_nonneg; eassumption).
  rewrite parse_fixed4 by apply units4_nonneg.
  split; [reflexivity | ].
  pose proof (units4_nonneg v). pose proof (units4_le v z Hv).
  unfold Qle, inject_Z; cbn [Qnum Qden]. lia.
Qed.


End Outcomes.

(** ** The claims of the specification *)

Section Claims.

Context `{G : BitGenerator}.


(** C2. For a fixed seed, count and scale, two runs that complete, from
    any two worlds (other generator states, other files, other output so
    far), leave the same bytes in the file: the text is a function of
    the seed, the count and the scale alone. *)
Theorem C2_file_is_function_of_constants
  (seed n m : Z) (path : string) (w1 w2 : World) :
  snd (generate seed n m path w1) = Ok tt ->
  snd (generate seed n m path w2) = Ok tt ->
  read_file (w_fs (fst (generate seed n m path w1))) path
  = read_file (w_fs (fst (generate seed n m path w2))) path /\
  read_file (w_fs (fst (generate seed n m path w1))) path
  = Some (savetxt_text (points_of seed n m)).
Proof.
  intros H1 H2.
  apply generate_ok_inv in H1 as (_ & _ & Hr1 & _).
  apply generate_ok_inv in H2 as (_ & _ & Hr2 & _).
  rewrite Hr1, Hr2. split; reflexivity.
Qed.

(** C3. On a completed run the file holds exactly [num_points] lines,
    each newline terminated, one per generated point and in their order;
    the text is these lines and nothing else, so there is no header and
    no trailer. *)
Theorem C3_one_line_per_point
  (seed n m : Z) (path : string) (w : World) :
  snd (generate seed n m path w) = Ok tt ->
  exists text lines,
    read_file (w_fs (fst (generate seed n m path w))) path = Some text /\
    file_lines text = Some lines /\
    List.length lines = Z.to_nat n /\
    lines = map format_row (points_of seed n m) /\
    text = String.concat "" (map (fun l => l +:+ newline) lines).
Proof.
  intros Hok. apply generate_ok_inv in Hok as (_ & _ & Hread & _).
  exists (savetxt_text (points_of seed n m)),
         (map format_row (points_of seed n m)).
  split; [exact Hread | ]. split; [apply file_lines_savetxt | ].
  split; [now rewrite length_map, points_of_length | ].
  split; [reflexivity | ].
  unfold savetxt_text. now rewrite map_map.
Qed.

(** C4. On a completed run with scale [MAX_COORDINATE] every line of the
    file is three fields separated by single spaces, each field being
    digits, a point and exactly four digits: fixed-point notation, no
    sign and no exponent. *)
Theorem C4_line_format
  (seed n : Z) (path : string) (w : World) :
  snd (generate seed n MAX_COORDINATE path w) = Ok tt ->
  exists text lines,
    read_file (w_fs (fst (generate seed n MAX_COORDINATE path w))) path
    = Some text /\
    file_lines text = Some lines /\
    Forall (fun l => is_point_line l = true) lines.
Proof.
  intros Hok. apply generate_ok_inv in Hok as (_ & _ & Hread & _).
  exists (savetxt_text (points_of seed n MAX_COORDINATE)),
         (map format_row (points_of seed n MAX_COORDINATE)).
  split; [exact Hread | ]. split; [apply file_lines_savetxt | ].
  apply List.Forall_map, List.Forall_forall. intros row Hrow.
  apply points_in_range in Hrow as (a & b & c & -> & Ha & Hb & Hc).
  apply is_point_line_row; eapply nonneg_lt_nonneg; eassumption.
Qed.

(** C5. On a completed run the generator, reset by the seed, has given
    exactly [3 * num_points] samples, each a double in [[0, 1)]; point
    [i] is made of samples [3i], [3i+1], [3i+2], each multiplied by the
    scale; and line [i] of the file is point [i] formatted, nothing
    reordered, dropped or merged. *)
Theorem C5_samples_rows_and_order
  (seed n m : Z) (path : string) (w : World) :
  snd (generate seed n m path w) = Ok tt ->
  let w' := fst (generate seed n m path w) in
  w_rng w' = state_after (bg_seed seed) (Z.to_nat n * 3) /\
  (forall k, F64.in_unit_interval (sample_at (bg_seed seed) k) = true) /\
  points_of seed n m = map (spec_point seed m) (seq 0 (Z.to_nat n)) /\
  exists text lines,
    read_file (w_fs w') path = Some text /\
    file_lines text = Some lines /\
    List.length lines = Z.to_nat n /\
    forall i, (i < Z.to_nat n)%nat ->
      nth_error lines i = Some (format_row (spec_point seed m i)).
Proof.
  intros Hok w'. subst w'.
  apply generate_ok_inv in Hok as (_ & _ & Hread & _ & Hrng).
  split; [exact Hrng | ].
  split; [intros k; apply sample_at_in_unit | ].
  split; [apply points_of_spec | ].
  exists (savetxt_text (points_of seed n m)),
         (map format_row (points_of seed n m)).
  split; [exact Hread | ]. split; [apply file_lines_savetxt | ].
  split; [now rewrite length_map, points_of_length | ].
  intros i Hi. rewrite points_of_spec, map_map.
  rewrite nth_error_map, nth_error_nth' with (d := 0%nat)
    by (rewrite length_seq; exact Hi).
  rewrite seq_nth by exact Hi. reflexivity.
Qed.

(** C6. The script takes no argument; its constants are
    [MAX_COORDINATE = 100000], [NUM_POINTS = 100000], the path
    [./data/points.txt] and the seed 1701; a run that completes appends
    to standard output exactly the line
    [100000 points are written to ./data/points.txt]. *)
Theorem C6_confirmation_line (w : World) :
  snd (main w) = Ok tt ->
  main = generate 1701 100000 100000 "./data/points.txt" /\
  w_stdout (fst (main w))
  = w_stdout w +:+ "100000 points are written to ./data/points.txt"
    +:+ newline /\
  file_lines ("100000 points are written to ./data/points.txt" +:+ newline)
  = Some ["100000 points are written to ./data/points.txt"].
Proof.
  intros Hok. split; [reflexivity | ].
  unfold main in *.
  apply generate_ok_inv in Hok as (_ & _ & _ & Hout & _).
  split; [ | reflexivity].
  rewrite Hout. reflexivity.
Qed.


(** C8. With a count of 0 and a destination that can be opened, the run
    completes, the file is empty (zero lines), and standard output
    receives [0 points are written to <path>]. *)
Theorem C8_zero_points
  (seed m : Z) (path : string) (w : World) (fs1 : FileSystem) :
  0 <= seed < 2 ^ 32 ->
  open_wt (w_fs w) path = inr fs1 ->
  let w' := fst (generate seed 0 m path w) in
  snd (generate seed 0 m path w) = Ok tt /\
  read_file (w_fs w') path = Some "" /\
  file_lines "" = Some [] /\
  w_stdout w' = w_stdout w +:+ "0 points are written to " +:+ path
                +:+ newline.
Proof.
  intros Hseed Hopen w'.
  assert (Hok : snd (generate seed 0 m path w) = Ok tt).
  { rewrite generate_result.
    replace ((0 <=? seed) && (seed <? 2 ^ 32)) with true by lia.
    cbn [negb]. change (0 <? 0) with false. cbv iota.
    unfold savetxt_outcome. rewrite Hopen.
    change (points_of seed 0 m) with (@nil (list spec_float)).
    change (N.of_nat (String.length (savetxt_text []))) with 0%N.
    replace (0 <=? fs_free fs1)%N with true; [reflexivity | ].
    symmetry. apply N.leb_le. lia. }
  split; [exact Hok | ].
  apply generate_ok_inv in Hok as (_ & _ & Hread & Hout & _).
  fold w' in Hread, Hout.
  split; [exact Hread | ]. split; [reflexivity | ].
  rewrite Hout. reflexivity.
Qed.

(** C9. A run that raises, an I/O error of the write included, leaves
    standard output unchanged; the confirmation line is only there on a
    completed run, and then the file holds the whole text. *)
Theorem C9_message_only_after_write
  (seed n m : Z) (path : string) (w : World) :
  let w' := fst (generate seed n m path w) in
  let r := snd (generate seed n m path w) in
  (forall e, r = Raise e -> w_stdout w' = w_stdout w) /\
  (r = Ok tt ->
   read_file (w_fs w') path = Some (savetxt_text (points_of seed n m)) /\
   w_stdout w' = w_stdout w
                 +:+ String.concat " "
                       [string_of_Z n; "points are written to"; path]
                 +:+ newline).
Proof.
  intros w' r. split.
  - intros e He. eapply generate_raise_stdout. exact He.
  - intros Hok. apply generate_ok_inv in Hok as (_ & _ & Hread & Hout & _).
    split; assumption.
Qed.


End Claims.

(** ** The claims at concrete worlds *)

(** MT19937 against its reference output: seed 5489 starts with
    3499211612, and NumPy's [seed(0)] starts its doubles with
    0.5488135039273248 = 4943272583565992 / 2^53. *)
Example mt19937_reference_word :
  fst (MT19937.next_uint32 (MT19937.seed 5489)) = 3499211612.
Proof. vm_compute. reflexivity. Qed.

Example mt19937_reference_double :
  fst (next_double (G := MT19937.generator) (MT19937.seed 0))
  = S754_finite false 4943272583565992 (-53).
Proof. vm_compute. reflexivity. Qed.

(** The first line the script writes. *)
Example first_line_of_the_file :
  map format_row (points_of (G := MT19937.generator) 1701 1 MAX_COORDINATE)
  = ["8943.3234 11537.7685 51874.3936"].
Proof. vm_compute. reflexivity. Qed.

(** Ties go to the even neighbour: [0.03125] prints as [0.0312]. *)
Example format_tie : format_4f (S754_finite false 1 (-5)) = "0.0312".
Proof. vm_compute. reflexivity. Qed.

Example dirname_of_file_path : dirname FILE_PATH = "./data".
Proof. vm_compute. reflexivity. Qed.



(** C2 at two concrete worlds that differ in the generator state, in the
    files present and in the output so far. *)
Lemma C2_witness :
  let w1 := mt_world 7 data_dir_nodes 4096 "" in
  let w2 := mt_world 99 (insert FILE_PATH (File true "stale") data_dir_nodes)
              200 "earlier output" in
  let run1 := generate (G := MT19937.generator) 1701 2 100000 FILE_PATH w1 in
  let run2 := generate (G := MT19937.generator) 1701 2 100000 FILE_PATH w2 in
  snd run1 = Ok tt /\ snd run2 = Ok tt /\
  read_file (w_fs (fst run1)) FILE_PATH = read_file (w_fs (fst run2)) FILE_PATH /\
  read_file (w_fs (fst run1)) FILE_PATH
  = Some (savetxt_text (points_of (G := MT19937.generator) 1701 2 100000)).
Proof.
  cbv zeta.
  assert (H1 : snd (generate (G := MT19937.generator) 1701 2 100000 FILE_PATH
                      (mt_world 7 data_dir_nodes 4096 "")) = Ok tt)
    by (vm_compute; reflexivity).
  assert (H2 : snd (generate (G := MT19937.generator) 1701 2 100000 FILE_PATH
                      (mt_world 99
                         (insert FILE_PATH (File true "stale") data_dir_nodes)
                         200 "earlier output")) = Ok tt)
    by (vm_compute; reflexivity).
  split; [exact H1 | ]. split; [exact H2 | ].
  exact (C2_file_is_function_of_constants 1701 2 100000 FILE_PATH _ _ H1 H2).
Defined.

(** C3 at a concrete world: three points. *)
Lemma C3_witness :
  let run := generate (G := MT19937.generator) 1701 3 100000 FILE_PATH
               (mt_world 7 data_dir_nodes 4096 "") in
  snd run = Ok tt /\
  exists text lines,
    read_file (w_fs (fst run)) FILE_PATH = Some text /\
    file_lines text = Some lines /\
    List.length lines = Z.to_nat 3 /\
    lines = map format_row (points_of (G := MT19937.generator) 1701 3 100000) /\
    text = String.concat "" (map (fun l => l +:+ newline) lines).
Proof.
  cbv zeta.
  assert (H : snd (generate (G := MT19937.generator) 1701 3 100000 FILE_PATH
                     (mt_world 7 data_dir_nodes 4096 "")) = Ok tt)
    by (vm_compute; reflexivity).
  split; [exact H | ].
  exact (C3_one_line_per_point 1701 3 100000 FILE_PATH _ H).
Defined.

(** C4 at a concrete world: three points. *)
Lemma C4_witness :
  let run := generate (G := MT19937.generator) 1701 3 MAX_COORDINATE FILE_PATH
               (mt_world 7 data_dir_nodes 4096 "") in
  snd run = Ok tt /\
  exists text lines,
    read_file (w_fs (fst run)) FILE_PATH = Some text /\
    file_lines text = Some lines /\
    Forall (fun l => is_point_line l = true) lines.
Proof.
  cbv zeta.
  assert (H : snd (generate (G := MT19937.generator) 1701 3 MAX_COORDINATE
                     FILE_PATH (mt_world 7 data_dir_nodes 4096 "")) = Ok tt)
    by (vm_compute; reflexivity).
  split; [exact H | ].
  exact (C4_line_format 1701 3 FILE_PATH _ H).
Defined.

(** C5 at a concrete world: three points, nine samples. *)
Lemma C5_witness :
  let run := generate (G := MT19937.generator) 1701 3 100000 FILE_PATH
               (mt_world 7 data_dir_nodes 4096 "") in
  snd run = Ok tt /\
  w_rng (fst run) = state_after (G := MT19937.generator)
                      (MT19937.seed 1701) (Z.to_nat 3 * 3) /\
  (forall k, F64.in_unit_interval
               (sample_at (G := MT19937.generator) (MT19937.seed 1701) k)
             = true) /\
  points_of (G := MT19937.generator) 1701 3 100000
  = map (spec_point (G := MT19937.generator) 1701 100000) (seq 0 (Z.to_nat 3)) /\
  exists text lines,
    read_file (w_fs (fst run)) FILE_PATH = Some text /\
    file_lines text = Some lines /\
    List.length lines = Z.to_nat 3 /\
    forall i, (i < Z.to_nat 3)%nat ->
      nth_error lines i
      = Some (format_row (spec_point (G := MT19937.generator) 1701 100000 i)).
Proof.
  cbv zeta.
  assert (H : snd (generate (G := MT19937.generator) 1701 3 100000 FILE_PATH
                     (mt_world 7 data_dir_nodes 4096 "")) = Ok tt)
    by (vm_compute; reflexivity).
  split; [exact H | ].
  exact (C5_samples_rows_and_order 1701 3 100000 FILE_PATH _ H).
Defined.

(** The script itself completes on a device with exactly the room the file
    takes. *)
Lemma main_completes :
  snd (main (G := MT19937.generator)
         (mt_world 0 data_dir_nodes main_text_size "")) = Ok tt.
Proof.
  unfold main. apply generate_ok_fresh.
  - lia.
  - unfold NUM_POINTS. lia.
  - unfold mt_world. cbn [w_fs fs_nodes]. vm_compute. reflexivity.
  - unfold mt_world. cbn [w_fs fs_nodes]. vm_compute. reflexivity.
  - unfold mt_world. cbn [w_fs fs_free]. unfold main_text_size.
    apply N.le_refl.
Qed.

(** C6 at the world of [main_completes]. *)
Lemma C6_witness :
  let run := main (G := MT19937.generator)
               (mt_world 0 data_dir_nodes main_text_size "") in
  snd run = Ok tt /\
  main (G := MT19937.generator)
  = generate 1701 100000 100000 "./data/points.txt" /\
  w_stdout (fst run)
  = "" +:+ "100000 points are written to ./data/points.txt" +:+ newline /\
  file_lines ("100000 points are written to ./data/points.txt" +:+ newline)
  = Some ["100000 points are written to ./data/points.txt"].
Proof.
  cbv zeta. split; [exact main_completes | ].
  exact (C6_confirmation_line _ main_completes).
Defined.



(** C8 at a concrete world: a full device still takes the empty file. *)
Lemma C8_witness :
  let w := mt_world 7 data_dir_nodes 0 "" in
  let run := generate (G := MT19937.generator) 1701 0 100000 FILE_PATH w in
  0 <= 1701 < 2 ^ 32 /\
  open_wt (w_fs w) FILE_PATH
  = inr (mkFS (insert FILE_PATH (File true "") data_dir_nodes) 0) /\
  snd run = Ok tt /\
  read_file (w_fs (fst run)) FILE_PATH = Some "" /\
  file_lines "" = Some [] /\
  w_stdout (fst run)
  = "" +:+ "0 points are written to " +:+ FILE_PATH +:+ newline.
Proof.
  cbv zeta.
  assert (Hseed : 0 <= 1701 < 2 ^ 32) by lia.
  assert (Hopen : open_wt (w_fs (mt_world 7 data_dir_nodes 0 "")) FILE_PATH
                  = inr (mkFS (insert FILE_PATH (File true "") data_dir_nodes) 0))
    by (vm_compute; reflexivity).
  split; [exact Hseed | ]. split; [exact Hopen | ].
  exact (C8_zero_points 1701 100000 FILE_PATH _ _ Hseed Hopen).
Defined.

(** C9 at a world without [./data]: the run raises and the output so far
    is untouched. *)
Lemma C9_witness :
  let w := mt_world 7 no_data_dir_nodes 4096 "earlier output" in
  let run := generate (G := MT19937.generator) 1701 2 100000 FILE_PATH w in
  snd run = Raise (OSError FileNotFoundError) /\
  w_stdout (fst run) = "earlier output".
Proof.
  cbv zeta.
  assert (H : snd (generate (G := MT19937.generator) 1701 2 100000 FILE_PATH
                     (mt_world 7 no_data_dir_nodes 4096 "earlier output"))
              = Raise (OSError FileNotFoundError))
    by (vm_compute; reflexivity).
  split; [exact H | ].
  exact (proj1 (C9_message_only_after_write 1701 2 100000 FILE_PATH
                  (mt_world 7 no_data_dir_nodes 4096 "earlier output"))
           _ H).
Defined.


(** ** Beyond the claims: the size of the file *)

Section Size.

Context `{G : BitGenerator}.

Lemma length_append (a b : string) :
  String.length (a +:+ b) = (String.length a + String.length b)%nat.
Proof.
  induction a as [ | c a IH]; [reflexivity | ].
  rewrite append_cons. cbn [String.length]. now rewrite IH.
Qed.

(** Checking a decidable property of [0 .. n - 1] by counting up. *)
Lemma check_below (P : N -> bool) (n : N) :
  snd (N.iter n (fun p => (N.succ (fst p), snd p && P (fst p))) (0%N, true))
  = true ->
  forall k, (k < n)%N -> P k = true.
Proof.
  set (step := fun p : N * bool => (N.succ (fst p), snd p && P (fst p))).
  assert (Hfst : forall m, fst (N.iter m step (0%N, true)) = m).
  { intros m. induction m as [ | m IH] using N.peano_ind; [reflexivity | ].
    rewrite N.iter_succ. cbn [step fst]. now rewrite IH. }
  induction n as [ | n IH] using N.peano_ind; intros Hall k Hk; [lia | ].
  rewrite N.iter_succ in Hall. cbn [step snd] in Hall.
  apply andb_prop in Hall as [Hprev Hn]. rewrite Hfst in Hn.
  destruct (N.eq_dec k n) as [-> | Hne]; [exact Hn | ].
  apply IH; [exact Hprev | lia].
Qed.

Lemma string_of_N_length_all :
  snd (N.iter 100001
         (fun p => (N.succ (fst p),
                    snd p &&
                    (let l := String.length (string_of_N (fst p)) in
                     (1 <=? l)%nat && (l <=? 6)%nat)))
         (0%N, true)) = true.
Proof. vm_compute. reflexivity. Qed.

Lemma string_of_N_length (k : Z) :
  0 <= k <= 100000 ->
  (1 <= String.length (string_of_N (Z.to_N k)) <= 6)%nat.
Proof.
  intros Hk.
  pose proof (check_below
                (fun i => let l := String.length (string_of_N i) in
                          (1 <=? l)%nat && (l <=? 6)%nat)
                100001 string_of_N_length_all (Z.to_N k) ltac:(lia)) as H.
  cbv zeta in H. apply andb_prop in H as [H1 H2].
  apply Nat.leb_le in H1, H2. lia.
Qed.

(** A coordinate below 100000 takes between 6 and 11 characters, from
    [0.0000] to [100000.0000]. *)
Lemma field_length (v : spec_float) :
  F64.nonneg_lt v 100000 = true ->
  (6 <= String.length (format_4f v) <= 11)%nat.
Proof.
  intros Hv.
  rewrite format_4f_nonneg by (eapply nonneg_lt_nonneg; eassumption).
  pose proof (units4_nonneg v) as H0. pose proof (units4_le v 100000 Hv) as H1.
  unfold fixed4. rewrite !length_append.
  destruct (digits4_shape (units4 v mod 10000)) as (_ & -> & _).
  assert (Hq : 0 <= units4 v / 10000 <= 100000).
  { split; [apply Z.div_pos; lia | ].
    apply Z.div_le_upper_bound; lia. }
  pose proof (string_of_N_length _ Hq). cbn [String.length]. lia.
Qed.

Lemma row_length (a b c : spec_float) :
  F64.nonneg_lt a 100000 = true -> F64.nonneg_lt b 100000 = true ->
  F64.nonneg_lt c 100000 = true ->
  (20 <= String.length (format_row [a; b; c]) <= 35)%nat.
Proof.
  intros Ha Hb Hc. unfold format_row. cbn [map String.concat].
  rewrite !length_append. cbn [String.length].
  pose proof (field_length a Ha). pose proof (field_length b Hb).
  pose proof (field_length c Hc). lia.
Qed.

Lemma savetxt_text_length (a : list (list spec_float)) (lo hi : nat) :
  Forall (fun row => (lo <= String.length (format_row row) <= hi)%nat) a ->
  (List.length a * (lo + 1) <= String.length (savetxt_text a)
   <= List.length a * (hi + 1))%nat.
Proof.
  unfold savetxt_text. induction 1 as [ | row a Hrow Ha IH]; [cbn; lia | ].
  cbn [map]. rewrite concat_empty_cons, !length_append.
  cbn [List.length String.length newline]. lia.
Qed.

(** The file of a run with scale [MAX_COORDINATE] takes between 21 and 36
    bytes a point: three fields of 6 to 11 characters, two spaces, a
    newline. *)
Theorem file_size_bounds (seed n : Z) :
  0 <= n ->
  21 * n
  <= Z.of_nat (String.length (savetxt_text (points_of seed n MAX_COORDINATE)))
  <= 36 * n.
Proof.
  intros Hn.
  assert (H : Forall (fun row =>
                        (20 <= String.length (format_row row) <= 35)%nat)
                     (points_of seed n MAX_COORDINATE)).
  { apply List.Forall_forall. intros row Hrow.
    apply points_in_range in Hrow as (a & b & c & -> & Ha & Hb & Hc).
    now apply row_length. }
  apply savetxt_text_length in H. rewrite points_of_length in H. lia.
Qed.


(** And it fails for lack of room whenever the device, after the
    destination was opened, has fewer than 2100000 bytes free. *)
Theorem main_fails_without_room (w : World) (fs1 : FileSystem) :
  open_wt (w_fs w) FILE_PATH = inr fs1 ->
  (fs_free fs1 < 2100000)%N ->
  snd (main w) = Raise (OSError NoSpaceError).
Proof.
  intros Hopen Hfree. unfold main. rewrite generate_result.
  change (negb ((0 <=? 1701) && (1701 <? 2 ^ 32))) with false.
  change (NUM_POINTS <? 0) with false. cbv iota.
  unfold savetxt_outcome. rewrite Hopen.
  pose proof (file_size_bounds 1701 NUM_POINTS ltac:(unfold NUM_POINTS; lia))
    as [Hlo _].
  unfold NUM_POINTS in Hlo at 1.
  replace (_ <=? _)%N with false; [reflexivity | ].
  symmetry. apply N.leb_gt. lia.
Qed.

End Size.

(** ** Beyond the claims: when the written coordinate stays below the
    maximum *)

Section Threshold.

(** The product of a positive double below 1 with [100000.0], step by
    step: its mantissa [m3] and exponent after a shift by [k] bits, a
    rounding and at most one more shift. *)
Lemma mul_max_shape (m : positive) (e : Z) :
  Zpos m < 2 ^ 53 -> e < 0 -> Zpos m < 2 ^ (- e) ->
  exists k k2 m3 : Z,
    0 <= k <= - e /\ 0 <= k2 <= 1 /\ 0 <= m3 /\
    2 * m3 * 2 ^ (k + k2) <= 2 * (Zpos m * 6871947673600000) + 2 ^ k /\
    F64.mul (S754_finite false m e) (F64.of_int 100000)
    = match m3 with
      | Z0 => S754_zero false
      | Zpos q => S754_finite false q (e - 36 + k + k2)
      | Zneg _ => S754_nan
      end.
Proof.
  intros Hm He Hlt. rewrite of_int_max.
  unfold F64.mul. cbn [SFmul xorb].
  destruct (binary_round_aux_spec false (m * 6871947673600000) (e + -36))
    as (k & m2 & k2 & m3 & Hk & Hm2 & Herr & Hk2 & Hm3 & Hle & Heq).
  fold F64.prec F64.emax. rewrite Heq. clear Heq.
  pose proof (digits2_pos_bounds (m * 6871947673600000)) as [Hdlo Hdhi].
  set (d := Zpos (digits2_pos (m * 6871947673600000))) in *.
  assert (Hd0 : 0 < d) by (subst d; lia).
  rewrite Pos2Z.inj_mul in *.
  set (M0 := 6871947673600000) in *.
  assert (HM0 : 2 ^ 52 < M0 < 2 ^ 53) by (subst M0; cbn; lia).
  set (n := - e) in *.
  assert (HTn : 0 < 2 ^ n) by (apply pow2_pos; lia).
  assert (Hprod : Zpos m * M0 < 2 ^ (53 + n)).
  { rewrite pow2_split by lia. nia. }
  assert (Hd : d <= 53 + n).
  { assert (H : 2 ^ (d - 1) < 2 ^ (53 + n)) by lia.
    apply Z.pow_lt_mono_r_iff in H; lia. }
  unfold fexp, emin, F64.prec, F64.emax in Hk, Hk2.
  assert (Hk0 : 0 <= k <= n /\ d - 53 <= k /\ -1074 <= e + -36 + k) by lia.
  destruct Hk0 as (Hk0 & Hkd & Hmin).
  assert (HTk : 0 < 2 ^ k) by (apply pow2_pos; lia).
  assert (Hm2hi : m2 <= 2 ^ 53).
  { assert (H : Zpos m * M0 < 2 ^ 53 * 2 ^ k).
    { rewrite <- pow2_split by lia.
      apply Z.lt_le_trans with (2 ^ d); [lia | ].
      apply Z.pow_le_mono_r; lia. }
    nia. }
  assert (Hdm2 : Zdigits2 m2 <= 54) by (apply Zdigits2_upper; lia).
  assert (Hk2' : 0 <= k2 <= 1) by lia.
  assert (HTk2 : 0 < 2 ^ k2) by (apply pow2_pos; lia).
  exists k, k2, m3.
  split; [exact Hk0 | ]. split; [exact Hk2' | ]. split; [exact Hm3 | ].
  split.
  { rewrite pow2_split by lia. nia. }
  destruct m3 as [ | q | q ]; try reflexivity.
  replace (e - 36 + k + k2) with (e + -36 + k + k2) by lia.
  unfold F64.emax, F64.prec.
  destruct (Z.leb_spec (e + -36 + k + k2) (1024 - 53)) as [ _ | Hbad ];
    [reflexivity | lia].
Qed.

(** A sample at most [1 - 6 * 10^-10] is written strictly below
    [MAX_COORDINATE]: only the last six ten-billionths under 1 can round
    up to [100000.0000]. *)
Theorem written_below_max_unless_sample_near_one (u : spec_float) :
  F64.in_unit_interval u = true ->
  (F64.to_Q u <= Qmake 9999999994 10000000000)%Q ->
  exists q,
    parse_fixed (format_4f (F64.mul u (F64.of_int MAX_COORDINATE))) = Some q /\
    (0 <= q /\ q < inject_Z MAX_COORDINATE)%Q.
Proof.
  intros Hu Hfar. unfold MAX_COORDINATE.
  pose proof (mul_max_lt u Hu) as Hrange.
  destruct (parse_coordinate _ 100000 Hrange) as (Hparse & Hq0 & _).
  eexists. split; [exact Hparse | ]. split; [exact Hq0 | ].
  unfold Qlt, inject_Z; cbn [Qnum Qden].
  enough (units4 (F64.mul u (F64.of_int 100000)) < 1000000000) by lia.
  destruct u as [ [ | ] | | | [ | ] m e ]; try discriminate Hu.
  { vm_compute. reflexivity. }
  cbn [F64.in_unit_interval] in Hu.
  apply andb_prop in Hu as [Hu Hlt]. apply andb_prop in Hu as [Hm He].
  apply Z.ltb_lt in Hm, He, Hlt. unfold F64.prec in Hm.
  cbn [F64.to_Q] in Hfar.
  destruct (Z.ltb_spec e 0) as [ _ | ]; [ | lia].
  unfold Qle in Hfar; cbn [Qnum Qden] in Hfar.
  rewrite Zpos_pow2 in Hfar by lia.
  destruct (mul_max_shape m e Hm He Hlt)
    as (k & k2 & m3 & Hk & Hk2 & Hm3 & Herr & ->).
  destruct m3 as [ | q | q ]; [cbn; lia | | cbn; lia].
  cbn [units4]. unfold scaled4.
  destruct (Z.leb_spec 0 (e - 36 + k + k2)) as [ | _ ]; [lia | ].
  pose proof (round_half_even_bounds (Zpos q * 10000) (- (e - 36 + k + k2))
                ltac:(lia) ltac:(lia)) as [Hr0 Hr].
  set (r := round_half_even (Zpos q * 10000) (- (e - 36 + k + k2))) in *.
  set (T3 := 2 ^ (- (e - 36 + k + k2))) in *.
  set (S := 2 ^ (k + k2)) in *.
  set (N := 2 ^ (- e)) in *.
  set (K := 2 ^ k) in *.
  assert (HT3 : 0 < T3) by (apply pow2_pos; lia).
  assert (HS : 0 < S) by (apply pow2_pos; lia).
  assert (HTS : T3 * S = 2 ^ 36 * N).
  { subst T3 S N. rewrite <- !pow2_split by lia. f_equal. lia. }
  assert (HKN : K <= N) by (apply Z.pow_le_mono_r; lia).
  destruct (Z_lt_le_dec r 1000000000) as [ | Hbig]; [assumption | exfalso].
  assert (H1 : (2 * 1000000000 - 1) * T3 <= 2 * 10000 * Zpos q) by nia.
  assert (H2 : (2 * 1000000000 - 1) * (T3 * S) <= 10000 * (2 * Zpos q * S))
    by nia.
  rewrite HTS in H2.
  change (2 ^ 36) with 68719476736 in H2.
  lia.
Qed.

End Threshold.

(** ** Beyond the claims: what a run does to the rest of the world *)

Section Effects.

Context `{G : BitGenerator}.

Lemma open_wt_inr (fs fs1 : FileSystem) (path : string) :
  open_wt fs path = inr fs1 ->
  dirname path <> path /\
  (exists dw, fs_nodes fs !! dirname path = Some (Dir dw)) /\
  fs_nodes fs1 = insert path (File true EmptyString) (fs_nodes fs) /\
  (fs_free fs <= fs_free fs1)%N.
Proof.
  unfold open_wt.
  destruct (fs_nodes fs !! dirname path) as [ [dw | fw c] | ] eqn:Hd;
    try discriminate.
  destruct (fs_nodes fs !! path) as [ [dw' | fw old] | ] eqn:Hp;
    try discriminate.
  - destruct fw; [ | discriminate]. intros H. inversion H; subst fs1.
    cbn [fs_nodes fs_free]. split; [congruence | ].
    split; [now exists dw | ]. split; [reflexivity | lia].
  - destruct dw; [ | discriminate]. intros H. inversion H; subst fs1.
    cbn [fs_nodes fs_free]. split; [congruence | ].
    split; [now exists true | ]. split; [reflexivity | lia].
Qed.



(** When the destination cannot be opened the file system and standard
    output are left exactly as they were, yet the generator has already
    been reset and has given all [3 * num_points] samples: sampling comes
    before writing. *)
Theorem failed_open_leaves_files_alone
  (seed n m : Z) (path : string) (w : World) (e : os_error) :
  0 <= seed < 2 ^ 32 -> 0 <= n ->
  open_wt (w_fs w) path = inl e ->
  generate seed n m path w
  = (mkWorld _ (state_after (bg_seed seed) (Z.to_nat n * 3))
       (w_fs w) (w_stdout w),
     Raise (OSError e)).
Proof.
  intros Hseed Hn Hopen. rewrite generate_eq.
  replace ((0 <=? seed) && (seed <? 2 ^ 32)) with true by lia.
  replace (n <? 0) with false by lia. cbn [negb]. cbv zeta.
  now rewrite Hopen.
Qed.

(** Running the script again after a completed run completes again and
    leaves the file system exactly as the first run left it, the
    generator in the same state, and one more confirmation line on
    standard output. *)
Theorem rerun_is_idempotent
  (seed n m : Z) (path : string) (w : World) :
  snd (generate seed n m path w) = Ok tt ->
  let w1 := fst (generate seed n m path w) in
  let w2 := fst (generate seed n m path w1) in
  snd (generate seed n m path w1) = Ok tt /\
  w_fs w2 = w_fs w1 /\
  w_rng w2 = w_rng w1 /\
  w_stdout w2 = w_stdout w1
                +:+ String.concat " "
                      [string_of_Z n; "points are written to"; path]
                +:+ newline.
Proof.
  intros Hok w1 w2. subst w2 w1.
  set (text := savetxt_text (points_of seed n m)).
  assert (Hfirst :
    exists fs1,
      open_wt (w_fs w) path = inr fs1 /\
      (N.of_nat (String.length text) <= fs_free fs1)%N /\
      w_fs (fst (generate seed n m path w))
      = mkFS (insert path (File true text) (fs_nodes fs1))
             (fs_free fs1 - N.of_nat (String.length text)) /\
      0 <= seed < 2 ^ 32 /\ 0 <= n).
  { revert Hok. rewrite generate_eq.
    destruct ((0 <=? seed) && (seed <? 2 ^ 32)) eqn:Hseed; cbn [negb];
      [ | discriminate].
    destruct (Z.ltb_spec n 0) as [ | Hn]; [discriminate | ]. cbv zeta.
    destruct (open_wt (w_fs w) path) as [e | fs1]; [discriminate | ].
    fold text. unfold write_close.
    destruct (N.leb_spec (N.of_nat (String.length text)) (fs_free fs1));
      [ | discriminate].
    intros _. exists fs1. cbn [fst w_fs].
    repeat split; try reflexivity; try assumption; lia. }
  destruct Hfirst as (fs1 & Hopen & Hfit & Hfs & Hseed & Hn).
  apply open_wt_inr in Hopen as (Hne & (dw & Hdir) & Hnodes & _).
  set (w1 := fst (generate seed n m path w)) in *.
  assert (Hopen1 :
    open_wt (w_fs w1) path
    = inr (mkFS (insert path (File true EmptyString) (fs_nodes (w_fs w1)))
                (fs_free (w_fs w1) + N.of_nat (String.length text)))).
  { unfold open_wt. rewrite Hfs. cbn [fs_nodes fs_free].
    rewrite Hnodes, !lookup_insert_ne by congruence.
    rewrite Hdir, lookup_insert_eq. reflexivity. }
  rewrite generate_eq.
  replace ((0 <=? seed) && (seed <? 2 ^ 32)) with true by lia.
  replace (n <? 0) with false by lia. cbn [negb]. cbv zeta.
  rewrite Hopen1. fold text. unfold write_close. cbn [fs_nodes fs_free].
  destruct (N.leb_spec (N.of_nat (String.length text))
              (fs_free (w_fs w1) + N.of_nat (String.length text)));
    [ | lia].
  cbn [fst snd w_fs w_rng w_stdout].
  split; [reflexivity | ]. split.
  - rewrite Hfs. cbn [fs_nodes fs_free]. f_equal.
    + now rewrite !insert_insert_eq.
    + lia.
  - split; [ | reflexivity].
    subst w1. rewrite generate_eq.
    replace ((0 <=? seed) && (seed <? 2 ^ 32)) with true by lia.
    replace (n <? 0) with false by lia. cbn [negb]. cbv zeta.
    destruct (open_wt (w_fs w) path); [reflexivity | ].
    destruct (write_close _ path _) as [fs2 [e | ]]; reflexivity.
Qed.

End Effects.

(** ** The further properties at concrete worlds *)

(** Two points take between 42 and 72 bytes. *)
Lemma file_size_bounds_witness :
  0 <= 2 /\
  21 * 2
  <= Z.of_nat (String.length
                 (savetxt_text (points_of (G := MT19937.generator)
                                  1701 2 MAX_COORDINATE)))
  <= 36 * 2.
Proof.
  assert (H : 0 <= 2) by lia.
  split; [exact H | ].
  exact (file_size_bounds (G := MT19937.generator) 1701 2 H).
Defined.


Lemma main_fails_without_room_witness :
  let w := mt_world 0 data_dir_nodes 2000000 "" in
  let fs1 := mkFS (insert FILE_PATH (File true "") data_dir_nodes) 2000000 in
  open_wt (w_fs w) FILE_PATH = inr fs1 /\
  (fs_free fs1 < 2100000)%N /\
  snd (main (G := MT19937.generator) w) = Raise (OSError NoSpaceError).
Proof.
  cbv zeta.
  assert (Hopen : open_wt (w_fs (mt_world 0 data_dir_nodes 2000000 ""))
                    FILE_PATH
                  = inr (mkFS (insert FILE_PATH (File true "") data_dir_nodes)
                           2000000))
    by (vm_compute; reflexivity).
  assert (Hfree : (fs_free (mkFS (insert FILE_PATH (File true "")
                                    data_dir_nodes) 2000000)
                   < 2100000)%N)
    by (cbn [fs_free]; lia).
  split; [exact Hopen | ]. split; [exact Hfree | ].
  exact (main_fails_without_room _ _ Hopen Hfree).
Defined.

(** The first sample of the script, about 0.0894. *)
Lemma written_below_max_witness :
  let u := fst (next_double (G := MT19937.generator) (MT19937.seed 1701)) in
  F64.in_unit_interval u = true /\
  (F64.to_Q u <= Qmake 9999999994 10000000000)%Q /\
  exists q,
    parse_fixed (format_4f (F64.mul u (F64.of_int MAX_COORDINATE))) = Some q /\
    (0 <= q /\ q < inject_Z MAX_COORDINATE)%Q.
Proof.
  cbv zeta.
  assert (Hu : F64.in_unit_interval
                 (fst (next_double (G := MT19937.generator)
                         (MT19937.seed 1701))) = true)
    by (vm_compute; reflexivity).
  assert (Hfar : (F64.to_Q (fst (next_double (G := MT19937.generator)
                                   (MT19937.seed 1701)))
                  <= Qmake 9999999994 10000000000)%Q)
    by (vm_compute; discriminate).
  split; [exact Hu | ]. split; [exact Hfar | ].
  exact (written_below_max_unless_sample_near_one _ Hu Hfar).
Defined.


Lemma failed_open_witness :
  let w := mt_world 7 no_data_dir_nodes 4096 "earlier output" in
  0 <= 1701 < 2 ^ 32 /\ 0 <= 2 /\
  open_wt (w_fs w) FILE_PATH = inl FileNotFoundError /\
  generate (G := MT19937.generator) 1701 2 100000 FILE_PATH w
  = (mkWorld MT19937.generator
       (state_after (G := MT19937.generator) (MT19937.seed 1701)
          (Z.to_nat 2 * 3))
       (w_fs w) (w_stdout w),
     Raise (OSError FileNotFoundError)).
Proof.
  cbv zeta.
  assert (Hseed : 0 <= 1701 < 2 ^ 32) by lia.
  assert (Hn : 0 <= 2) by lia.
  assert (Hopen : open_wt (w_fs (mt_world 7 no_data_dir_nodes 4096
                                   "earlier output")) FILE_PATH
                  = inl FileNotFoundError)
    by (vm_compute; reflexivity).
  split; [exact Hseed | ]. split; [exact Hn | ]. split; [exact Hopen | ].
  exact (failed_open_leaves_files_alone (G := MT19937.generator)
           1701 2 100000 FILE_PATH _ _ Hseed Hn Hopen).
Defined.

Lemma rerun_witness :
  let w := mt_world 7 data_dir_nodes 4096 "" in
  let w1 := fst (generate (G := MT19937.generator) 1701 2 100000 FILE_PATH w) in
  let w2 := fst (generate (G := MT19937.generator) 1701 2 100000 FILE_PATH w1) in
  snd (generate (G := MT19937.generator) 1701 2 100000 FILE_PATH w) = Ok tt /\
  snd (generate (G := MT19937.generator) 1701 2 100000 FILE_PATH w1) = Ok tt /\
  w_fs w2 = w_fs w1 /\
  w_rng w2 = w_rng w1 /\
  w_stdout w2 = w_stdout w1
                +:+ String.concat " "
                      [string_of_Z 2; "points are written to"; FILE_PATH]
                +:+ newline.
Proof.
  cbv zeta.
  assert (H : snd (generate (G := MT19937.generator) 1701 2 100000 FILE_PATH
                     (mt_world 7 data_dir_nodes 4096 "")) = Ok tt)
    by (vm_compute; reflexivity).
  split; [exact H | ].
  exact (rerun_is_idempotent (G := MT19937.generator)
           1701 2 100000 FILE_PATH _ H).
Defined.
